(** * SAM inference driver and its logging manager

    A shallow embedding of [src/tools/log_mode.py] (the [LogManager] class
    over the loguru logger) and [src/predict.py] (the [SAMPredictor] class,
    [parse_args] and the [__main__] block), with the properties the
    specification states about them.

    Python objects that are shared and mutated ([LogManager] instances, the
    process-wide loguru logger, the file system) live in one [World]; methods
    are computations in a state-and-exception monad over it. *)

From stdpp Require Import gmap strings list fin_maps pretty.
From Stdlib Require Import Ascii.
From Stdlib Require QArith.QArith_base.

Set Warnings "-register-all".
Open Scope string_scope.

(** ** Python values and exceptions *)

Inductive Exn :=
| ValueError (msg : string)
| AttributeError (msg : string)
| AssertionError (msg : string)
| SystemExit (code : Z).

(** The values a YAML configuration holds and the prompts are made of.
    Floating-point numbers are not represented. *)
Inductive PyVal :=
| VNone
| VInt (n : Z)
| VStr (s : string)
| VList (l : list PyVal).

(** ** Strings *)

Fixpoint string_map (f : ascii → ascii) (s : string) : string :=
  match s with
  | EmptyString => EmptyString
  | String c r => String (f c) (string_map f r)
  end.

Definition ascii_upper (c : ascii) : ascii :=
  let n := nat_of_ascii c in
  if (97 <=? n)%nat && (n <=? 122)%nat then ascii_of_nat (n - 32) else c.

Definition ascii_lower (c : ascii) : ascii :=
  let n := nat_of_ascii c in
  if (65 <=? n)%nat && (n <=? 90)%nat then ascii_of_nat (n + 32) else c.

(** [str.upper()] and [str.lower()] on strings of ASCII characters; Python's
    case mapping of characters outside ASCII is not represented. *)
Definition upper (s : string) : string := string_map ascii_upper s.
Definition lower (s : string) : string := string_map ascii_lower s.

Definition startswith (s : string) (c : ascii) : bool :=
  match s with
  | String c' _ => bool_decide (c' = c)
  | EmptyString => false
  end.

Fixpoint endswith (s : string) (c : ascii) : bool :=
  match s with
  | EmptyString => false
  | String c' EmptyString => bool_decide (c' = c)
  | String _ r => endswith r c
  end.

(** [os.path.join(a, b)] of posixpath. *)
Definition os_path_join (a b : string) : string :=
  if startswith b "/" then b
  else if bool_decide (a = "") || endswith a "/" then a +:+ b
  else a +:+ "/" +:+ b.

(** ** The clock *)

Record Date := { year : nat; month : nat; day : nat }.

Definition digit (n : nat) : ascii := ascii_of_nat (48 + n `mod` 10).

Definition pad2 (n : nat) : string :=
  String (digit (n `div` 10)) (String (digit n) "").

Definition pad4 (n : nat) : string :=
  String (digit (n `div` 1000)) (String (digit (n `div` 100)) (pad2 n)).

(** [time.strftime("%Y-%m-%d")] at a clock reading (years 1000 to 9999). *)
Definition strftime_Ymd (d : Date) : string :=
  pad4 (year d) +:+ "-" +:+ pad2 (month d) +:+ "-" +:+ pad2 (day d).

(** ** loguru: handlers and records *)

Definition loc := nat.

(** Levels registered in loguru's core, by name. *)
Definition loguru_levels : list (string * Z) :=
  [("TRACE", 5); ("DEBUG", 10); ("INFO", 20); ("SUCCESS", 25);
   ("WARNING", 30); ("ERROR", 40); ("CRITICAL", 50)]%Z.

Fixpoint assoc {A} (k : string) (l : list (string * A)) : option A :=
  match l with
  | [] => None
  | (k', v) :: r => if bool_decide (k' = k) then Some v else assoc k r
  end.

Definition level_no (name : string) : option Z := assoc name loguru_levels.

Inductive Sink :=
| FileSink (path : string) (rotation : string) (retention : nat)
           (encoding : string)
| PrintSink.  (* the lambda that prints the message to standard output *)

Inductive Format :=
| FormatStr (s : string)
| FormatColored.  (* the closure [colored_format] *)

(** [lambda record: record["extra"].get("category") == self.category]: the
    closure keeps the manager [self] and reads its category when called. *)
Inductive Filter :=
| FilterCategory (self : loc).

Record Handler := {
  h_sink : Sink;
  h_level : string;
  h_levelno : Z;
  h_format : Format;
  h_filter : Filter
}.

Record LogRecord := {
  r_level : string;
  r_levelno : Z;
  r_message : string;
  r_extra : gmap string string
}.

(** A record that passed a handler's level and filter and was handed to its
    sink. *)
Record Event := {
  e_handler : nat;
  e_sink : Sink;
  e_record : LogRecord
}.

(** ** LogConfig *)

Module LogConfig.
Definition MAX_ROTATION_MB : nat := 200.
Definition LOG_FORMAT : string :=
  "{time:YYYY-MM-DD HH:mm:ss} - {name} - {level} - {message}".
Definition BACKUP_COUNT : nat := 5.
Definition ENCODING : string := "utf-8".
Definition VALID_LEVELS : list string := ["DEBUG"; "INFO"; "WARNING"; "ERROR"].
Definition LEVEL_PRIORITY : list (string * Z) :=
  [("DEBUG", 0); ("INFO", 1); ("WARNING", 2); ("ERROR", 3)]%Z.
(** [str(VALID_LEVELS)] *)
Definition VALID_LEVELS_str : string := "['DEBUG', 'INFO', 'WARNING', 'ERROR']".
End LogConfig.

(** ** The state of the process *)

Record LogManager := {
  log_path : string;
  run_mode : string;
  category : string;
  file_handlers : gmap string nat;
  console_handler_id : option nat
}.

(** The model wrappers of the ultralytics library, as constructed. *)
Record Overrides := {
  ov_conf : QArith_base.Q;
  ov_task : string;
  ov_mode : string;
  ov_imgsz : Z;
  ov_model : string;
  ov_save : option bool
}.

Inductive Model :=
| SAM (model : string)
| SAM2VideoPredictor (overrides : Overrides)
| SAM2DynamicInteractivePredictor (overrides : Overrides) (max_obj_num : Z).

(** One invocation of a wrapper: the source and the keyword arguments. *)
Record ModelCall := {
  mc_model : Model;
  mc_source : PyVal;
  mc_kwargs : gmap string PyVal
}.

(** A result object returned by a wrapper; [save] writes it to a path. *)
Definition Result := nat.

Record World := {
  w_handlers : list (nat * Handler);  (* loguru core.handlers, in insertion order *)
  w_handlers_count : nat;             (* loguru's handler id counter *)
  w_heap : gmap loc LogManager;       (* the LogManager objects *)
  w_paths : gset string;              (* paths that exist on disk *)
  w_clock : nat → Date;               (* successive readings of the clock *)
  w_tick : nat;                       (* readings taken so far *)
  w_out : list Event;                 (* what the sinks received *)
  w_predict : ModelCall → list Result;  (* the external library's answer *)
  w_calls : list ModelCall;           (* invocations of the wrapped model *)
  w_saved : list (Result * PyVal)     (* results saved, with the path given *)
}.

Definition set_handlers (f : list (nat * Handler) → list (nat * Handler)) (w : World) : World :=
  {| w_handlers := f (w_handlers w); w_handlers_count := w_handlers_count w;
     w_heap := w_heap w; w_paths := w_paths w; w_clock := w_clock w;
     w_tick := w_tick w; w_out := w_out w; w_predict := w_predict w;
     w_calls := w_calls w; w_saved := w_saved w |}.

Definition set_handlers_count (n : nat) (w : World) : World :=
  {| w_handlers := w_handlers w; w_handlers_count := n; w_heap := w_heap w;
     w_paths := w_paths w; w_clock := w_clock w; w_tick := w_tick w;
     w_out := w_out w; w_predict := w_predict w; w_calls := w_calls w;
     w_saved := w_saved w |}.

Definition set_heap (f : gmap loc LogManager → gmap loc LogManager) (w : World) : World :=
  {| w_handlers := w_handlers w; w_handlers_count := w_handlers_count w;
     w_heap := f (w_heap w); w_paths := w_paths w; w_clock := w_clock w;
     w_tick := w_tick w; w_out := w_out w; w_predict := w_predict w;
     w_calls := w_calls w; w_saved := w_saved w |}.

Definition set_paths (f : gset string → gset string) (w : World) : World :=
  {| w_handlers := w_handlers w; w_handlers_count := w_handlers_count w;
     w_heap := w_heap w; w_paths := f (w_paths w); w_clock := w_clock w;
     w_tick := w_tick w; w_out := w_out w; w_predict := w_predict w;
     w_calls := w_calls w; w_saved := w_saved w |}.

Definition set_tick (n : nat) (w : World) : World :=
  {| w_handlers := w_handlers w; w_handlers_count := w_handlers_count w;
     w_heap := w_heap w; w_paths := w_paths w; w_clock := w_clock w;
     w_tick := n; w_out := w_out w; w_predict := w_predict w;
     w_calls := w_calls w; w_saved := w_saved w |}.

Definition set_out (f : list Event → list Event) (w : World) : World :=
  {| w_handlers := w_handlers w; w_handlers_count := w_handlers_count w;
     w_heap := w_heap w; w_paths := w_paths w; w_clock := w_clock w;
     w_tick := w_tick w; w_out := f (w_out w); w_predict := w_predict w;
     w_calls := w_calls w; w_saved := w_saved w |}.

Definition set_calls (f : list ModelCall → list ModelCall) (w : World) : World :=
  {| w_handlers := w_handlers w; w_handlers_count := w_handlers_count w;
     w_heap := w_heap w; w_paths := w_paths w; w_clock := w_clock w;
     w_tick := w_tick w; w_out := w_out w; w_predict := w_predict w;
     w_calls := f (w_calls w); w_saved := w_saved w |}.

Definition set_saved (f : list (Result * PyVal) → list (Result * PyVal)) (w : World) : World :=
  {| w_handlers := w_handlers w; w_handlers_count := w_handlers_count w;
     w_heap := w_heap w; w_paths := w_paths w; w_clock := w_clock w;
     w_tick := w_tick w; w_out := w_out w; w_predict := w_predict w;
     w_calls := w_calls w; w_saved := f (w_saved w) |}.

(** ** The monad: state [World], exceptions [Exn] *)

Definition M (A : Type) : Type := World → (Exn + A) * World.

Definition ret {A} (a : A) : M A := λ w, (inr a, w).
Definition raise {A} (e : Exn) : M A := λ w, (inl e, w).
Definition bind {A B} (c : M A) (k : A → M B) : M B :=
  λ w, match c w with
       | (inr a, w') => k a w'
       | (inl e, w') => (inl e, w')
       end.
Definition gets {A} (f : World → A) : M A := λ w, (inr (f w), w).
Definition modify (f : World → World) : M unit := λ w, (inr (), f w).

Notation "x <- c ;; k" := (bind c (λ x, k))
  (at level 100, c at next level, right associativity).
Notation "c ;; k" := (bind c (λ _, k))
  (at level 100, right associativity).

Definition assert_ (b : bool) (msg : string) : M unit :=
  if b then ret () else raise (AssertionError msg).

(** ** The operating system *)

(** [os.makedirs(p, exist_ok=True)]; failures of the file system (a file in
    the way, missing permissions) are not represented. *)
Definition os_makedirs (p : string) : M unit :=
  modify (set_paths (λ s, {[p]} ∪ s)).

Definition os_path_exists (p : string) : M bool :=
  gets (λ w, bool_decide (p ∈ w_paths w)).

(** [time.strftime("%Y-%m-%d")]: takes the next reading of the clock. *)
Definition time_strftime_Ymd : M string :=
  λ w, (inr (strftime_Ymd (w_clock w (w_tick w))), set_tick (S (w_tick w)) w).

(** ** loguru: the logger *)

Module log.

(** [log.remove()] *)
Definition remove_all : M unit := modify (set_handlers (λ _, [])).

(** [log.remove(handler_id)] *)
Definition remove (id : nat) : M unit :=
  λ w, if bool_decide (id ∈ (w_handlers w).*1)
       then (inr (), set_handlers (filter (λ p, p.1 ≠ id)) w)
       else (inl (ValueError
               ("There is no existing handler with id " +:+ pretty id)), w).

(** [log.add(sink, level=, format=, filter=)]: takes the next handler id,
    resolves the level name and registers the handler. *)
Definition add (sink : Sink) (level : string) (format : Format)
    (flt : Filter) : M nat :=
  id <- gets w_handlers_count ;;
  modify (set_handlers_count (S id)) ;;
  match level_no level with
  | None => raise (ValueError ("Level '" +:+ level +:+ "' does not exist"))
  | Some no =>
      modify (set_handlers (λ hs, (hs ++
        [(id, {| h_sink := sink; h_level := level; h_levelno := no;
                 h_format := format; h_filter := flt |})])%list)) ;;
      ret id
  end.

Definition filter_accepts (f : Filter) (r : LogRecord) (w : World) : bool :=
  match f with
  | FilterCategory self =>
      match w_heap w !! self with
      | Some m => bool_decide (r_extra r !! "category" = Some (category m))
      | None => false
      end
  end.

Definition handler_accepts (h : Handler) (r : LogRecord) (w : World) : bool :=
  bool_decide (h_levelno h ≤ r_levelno r)%Z && filter_accepts (h_filter h) r w.

(** The handlers a record reaches, in the order they were added. *)
Definition deliveries (r : LogRecord) (w : World) : list Event :=
  omap (λ p, if handler_accepts p.2 r w
             then Some {| e_handler := p.1; e_sink := h_sink p.2;
                          e_record := r |}
             else None) (w_handlers w).

Definition emit (r : LogRecord) : M unit :=
  modify (λ w, set_out (λ out, (out ++ deliveries r w)%list) w).

(** [log.bind(category=c).debug(msg)] and its siblings, for a level given by
    name and the bound extra values. *)
Definition bind_log (extra : gmap string string) (level : string)
    (msg : string) : M unit :=
  match level_no level with
  | None => raise (ValueError ("Level '" +:+ level +:+ "' does not exist"))
  | Some no => emit {| r_level := level; r_levelno := no;
                       r_message := msg; r_extra := extra |}
  end.

Definition bind_debug extra msg := bind_log extra "DEBUG" msg.
Definition bind_info extra msg := bind_log extra "INFO" msg.
Definition bind_warning extra msg := bind_log extra "WARNING" msg.
Definition bind_error extra msg := bind_log extra "ERROR" msg.

End log.

(** ** LogManager *)

Definition with_run_mode (v : string) (m : LogManager) : LogManager :=
  {| log_path := log_path m; run_mode := v; category := category m;
     file_handlers := file_handlers m;
     console_handler_id := console_handler_id m |}.

Definition with_file_handlers (f : gmap string nat → gmap string nat)
    (m : LogManager) : LogManager :=
  {| log_path := log_path m; run_mode := run_mode m; category := category m;
     file_handlers := f (file_handlers m);
     console_handler_id := console_handler_id m |}.

Definition with_console_handler_id (v : option nat) (m : LogManager)
    : LogManager :=
  {| log_path := log_path m; run_mode := run_mode m; category := category m;
     file_handlers := file_handlers m; console_handler_id := v |}.

(** Allocation of a new object. *)
Definition alloc (m : LogManager) : M loc :=
  λ w, let l := fresh (dom (w_heap w)) in (inr l, set_heap <[l := m]> w).

(** Reading the attributes of [self].  Every reference a running program
    holds is allocated; the other case is there for totality. *)
Definition deref (self : loc) : M LogManager :=
  λ w, match w_heap w !! self with
       | Some m => (inr m, w)
       | None => (inl (AttributeError "dangling reference"), w)
       end.

(** Assignment to attributes of [self]. *)
Definition update (self : loc) (f : LogManager → LogManager) : M unit :=
  modify (set_heap (alter f self)).

Module LogManager.

Definition _get_log_file_path (self : loc) (mode : string) : M string :=
  m <- deref self ;;
  log_date <- time_strftime_Ymd ;;
  let date_dir := os_path_join (log_path m) log_date in
  os_makedirs date_dir ;;
  ex <- os_path_exists date_dir ;;
  assert_ ex ("日志目录创建失败：" +:+ date_dir) ;;
  let file_name :=
    os_path_join date_dir
      (category m +:+ "_" +:+ mode +:+ "_" +:+ log_date +:+ ".log") in
  ret file_name.

(** One of the four blocks of [_config_file_handlers], which differ in the
    key [mode] and the level name only. *)
Definition config_file_handler (self : loc) (mode level : string) : M unit :=
  m <- deref self ;;
  match file_handlers m !! mode with
  | Some id => log.remove id
  | None => ret ()
  end ;;
  path <- _get_log_file_path self mode ;;
  id <- log.add
          (FileSink path (pretty LogConfig.MAX_ROTATION_MB +:+ " MB")
                    LogConfig.BACKUP_COUNT LogConfig.ENCODING)
          level (FormatStr LogConfig.LOG_FORMAT) (FilterCategory self) ;;
  update self (with_file_handlers <[mode := id]>).

Definition _config_file_handlers (self : loc) : M unit :=
  config_file_handler self "error" "ERROR" ;;
  config_file_handler self "warning" "WARNING" ;;
  config_file_handler self "info" "INFO" ;;
  config_file_handler self "debug" "DEBUG".

Definition _config_console_handler (self : loc) : M unit :=
  m <- deref self ;;
  match console_handler_id m with
  | Some id => log.remove id
  | None => ret ()
  end ;;
  m <- deref self ;;
  id <- log.add PrintSink (run_mode m) FormatColored (FilterCategory self) ;;
  update self (with_console_handler_id (Some id)).

Definition __init__ (log_path run_mode category : string) : M loc :=
  let run_mode := upper run_mode in
  if negb (bool_decide (run_mode ∈ LogConfig.VALID_LEVELS)) then
    raise (ValueError ("初始日志级别无效：" +:+ run_mode +:+ "，合法级别："
                       +:+ LogConfig.VALID_LEVELS_str))
  else
    self <- alloc {| log_path := log_path; run_mode := run_mode;
                     category := category; file_handlers := ∅;
                     console_handler_id := None |} ;;
    os_makedirs log_path ;;
    log.remove_all ;;
    _config_file_handlers self ;;
    _config_console_handler self ;;
    ret self.

Definition bound (m : LogManager) : gmap string string :=
  {[ "category" := category m ]}.

Definition set_log_level (self : loc) (level : string) : M unit :=
  let level := upper level in
  if negb (bool_decide (level ∈ LogConfig.VALID_LEVELS)) then
    raise (ValueError ("无效的日志级别：" +:+ level +:+ "，合法级别："
                       +:+ LogConfig.VALID_LEVELS_str))
  else
    m <- deref self ;;
    if bool_decide (run_mode m = level) then
      log.bind_info (bound m)
        ("控制台日志级别已为 " +:+ level +:+ "，无需修改")
    else
      update self (with_run_mode level) ;;
      _config_console_handler self ;;
      m <- deref self ;;
      log.bind_info (bound m)
        ("控制台日志级别已更新为：" +:+ level +:+
         "（控制台不打印该级别以下的日志，但所有级别日志仍保存到本地）").

Definition debug (self : loc) (msg : string) : M unit :=
  m <- deref self ;; log.bind_debug (bound m) msg.

Definition info (self : loc) (msg : string) : M unit :=
  m <- deref self ;; log.bind_info (bound m) msg.

Definition warning (self : loc) (msg : string) : M unit :=
  m <- deref self ;; log.bind_warning (bound m) msg.

Definition error (self : loc) (msg : string) : M unit :=
  m <- deref self ;; log.bind_error (bound m) msg.

Definition get_current_level (self : loc) : M string :=
  m <- deref self ;; ret (run_mode m).

End LogManager.

(** ** Rendering of values in messages *)

Definition join_with (sep : string) (l : list string) : string :=
  match l with
  | [] => ""
  | x :: r => foldl (λ acc y, acc +:+ sep +:+ y) x r
  end.

(** [repr(v)], and [str(v)] which differs from it on a string only.  A string
    is quoted as it stands: the escapes [repr] adds are not represented. *)
Fixpoint py_repr (v : PyVal) : string :=
  match v with
  | VNone => "None"
  | VInt n => pretty n
  | VStr s => "'" +:+ s +:+ "'"
  | VList l => "[" +:+ join_with ", " (map py_repr l) +:+ "]"
  end.

Definition py_str (v : PyVal) : string :=
  match v with
  | VStr s => s
  | _ => py_repr v
  end.

(** ** SAMPredictor *)

Record SAMPredictor := {
  sp_log_manager : option loc;
  sp_mode : string;
  sp_model : option Model   (* [None]: the attribute was never assigned *)
}.

(** Use of [self.log_manager]: the default [None] has no methods. *)
Definition the_log_manager (o : option loc) (attr : string) : M loc :=
  match o with
  | Some l => ret l
  | None => raise (AttributeError
              ("'NoneType' object has no attribute '" +:+ attr +:+ "'"))
  end.

Module SAMPredictor.

Definition video_overrides (model_path : string) : Overrides :=
  {| ov_conf := QArith_base.Qmake 25 100; ov_task := "segment";
     ov_mode := "predict"; ov_imgsz := 1024; ov_model := model_path;
     ov_save := None |}.

Definition dyn_overrides : Overrides :=
  {| ov_conf := QArith_base.Qmake 1 100; ov_task := "segment";
     ov_mode := "predict"; ov_imgsz := 1024; ov_model := "sam2_t.pt";
     ov_save := Some false |}.

(** [load_model_elapsed] is the text of the elapsed time between the two
    readings of [time.time()], a floating-point number printed with two
    decimals; it is supplied from outside.  Failures of the library's
    constructors (a model file that cannot be loaded) are not represented. *)
Definition __init__ (model_path : string) (log_manager : option loc)
    (mode : string) (load_model_elapsed : string) : M SAMPredictor :=
  lm <- the_log_manager log_manager "debug" ;;
  LogManager.debug lm "🚀 开始加载SAM模型..." ;;
  model <-
    (if bool_decide (mode ∈ ["image"; "video2img"]) then
       LogManager.debug lm ("🚀 模式为" +:+ mode +:+ "，处理图片模式...") ;;
       ret (Some (SAM model_path))
     else if bool_decide (mode = "video") then
       LogManager.debug lm ("🚀 模式为" +:+ mode +:+ "，model为" +:+
                            model_path +:+ "，处理视频模式...") ;;
       ret (Some (SAM2VideoPredictor (video_overrides model_path)))
     else if bool_decide (mode = "DynVideo") then
       LogManager.debug lm ("🚀 模式为" +:+ mode +:+ "，处理动态交互模式...") ;;
       LogManager.info lm ("model_path: " +:+ model_path) ;;
       ret (Some (SAM2DynamicInteractivePredictor dyn_overrides 10))
     else ret None) ;;
  LogManager.debug lm ("✅ 模型加载完成 | 耗时: " +:+ load_model_elapsed
                       +:+ "s") ;;
  ret {| sp_log_manager := log_manager; sp_mode := mode;
         sp_model := model |}.

(** The call of the wrapped model: it is recorded and answered by the
    library. *)
Definition invoke (c : ModelCall) : M (list Result) :=
  modify (set_calls (λ l, (l ++ [c])%list)) ;;
  gets (λ w, w_predict w c).

Definition __call__ (self : SAMPredictor) (input_data : PyVal)
    (bboxes points labels : PyVal) : M (list Result) :=
  lm <- the_log_manager (sp_log_manager self) "debug" ;;
  LogManager.debug lm "🚀 模型开始处理..." ;;
  LogManager.debug lm ("🚀 input_data: " +:+ py_str input_data) ;;
  LogManager.debug lm ("🚀 bboxes: " +:+ py_str bboxes) ;;
  LogManager.debug lm ("🚀 points: " +:+ py_str points) ;;
  LogManager.debug lm ("🚀 labels: " +:+ py_str labels) ;;
  match sp_model self with
  | None => raise (AttributeError
              "'SAMPredictor' object has no attribute 'model'")
  | Some model =>
      invoke {| mc_model := model; mc_source := input_data;
                mc_kwargs := {[ "points" := points; "labels" := labels ]} |}
  end.

End SAMPredictor.

(** ** The command line and the main block *)

(** The options given on the command line, each one optional. *)
Record Argv := {
  argv_config : option string;
  argv_log_level : option string;
  argv_mode : option string
}.

Record Args := {
  args_config : string;
  args_log_level : string;
  args_mode : string
}.

Definition log_level_choices : list string :=
  ["DEBUG"; "INFO"; "WARNING"; "ERROR"].
Definition mode_choices : list string :=
  ["img"; "video2img"; "video"; "DynVideo"].

(** An option's value: the default when it is absent; a value outside the
    choices makes argparse exit with status 2. *)
Definition choice (given : option string) (dflt : string)
    (choices : list string) : M string :=
  match given with
  | None => ret dflt
  | Some v => if bool_decide (v ∈ choices) then ret v else raise (SystemExit 2)
  end.

Definition parse_args (argv : Argv) : M Args :=
  let config := default "./config/sam_2.yaml" (argv_config argv) in
  log_level <- choice (argv_log_level argv) "DEBUG" log_level_choices ;;
  mode <- choice (argv_mode argv) "video2img" mode_choices ;;
  ret {| args_config := config; args_log_level := log_level;
         args_mode := mode |}.

(** The configuration read from the YAML file, by the keys the driver uses. *)
Record Config := {
  input_data_path : string;
  output_data_path : string;
  model_path : string;
  bboxes : PyVal;
  points : PyVal;
  labels : PyVal
}.

(** [result.save(path)] *)
Definition result_save (r : Result) (path : PyVal) : M unit :=
  modify (set_saved (λ l, (l ++ [(r, path)])%list)).

(** Lines 159 to 174 of the main block: arguments, configuration, logging
    manager, predictor.  [config] is what [yaml.safe_load] returned. *)
Definition main_setup (argv : Argv) (config : Config)
    (load_model_elapsed : string) : M (Args * loc * SAMPredictor) :=
  args <- parse_args argv ;;
  ex <- os_path_exists (args_config args) ;;
  assert_ ex ("配置文件 " +:+ args_config args +:+ " 不存在") ;;
  ex <- os_path_exists (input_data_path config) ;;
  assert_ ex ("图片路径 " +:+ input_data_path config +:+ " 不存在") ;;
  os_makedirs (output_data_path config) ;;
  ex <- os_path_exists (output_data_path config) ;;
  assert_ ex ("输出路径 " +:+ output_data_path config +:+ " 不存在") ;;
  log_manager <- LogManager.__init__ "./logs/" "INFO" "default" ;;
  LogManager.set_log_level log_manager (args_log_level args) ;;
  sam_predictor <- SAMPredictor.__init__ (model_path config)
                     (Some log_manager) (args_mode args) load_model_elapsed ;;
  ret (args, log_manager, sam_predictor).

(** Lines 192 to 202 of the main block: the inference call and what is done
    with its results. *)
Definition main_inference (args : Args) (config : Config) (log_manager : loc)
    (sam_predictor : SAMPredictor) : M unit :=
  LogManager.info log_manager "🚀 开始推理..." ;;
  results <- SAMPredictor.__call__ sam_predictor
               (VStr (input_data_path config))
               (bboxes config) (points config) (labels config) ;;
  LogManager.info log_manager
    ("✅ 推理完成，共处理 " +:+ pretty (length results) +:+ " 个样本") ;;
  match results with
  | [r] => result_save r (VStr (output_data_path config))
  | _ :: _ :: _ =>
      LogManager.warning log_manager
        ("⚠️  多个结果，请自行处理， 选择模式为 " +:+ args_mode args)
  | [] => LogManager.error log_manager "❌ 未处理任何样本"
  end.

(** ** Colours of the console *)

Module Color.
Definition ESC : string := String "027"%char "".
End Color.

(** The line feed. *)
Definition NL : string := String "010"%char "".




(** ** System information *)

(** A dict as its items in insertion order. *)
Definition Dict : Type := list (string * PyVal).

(** [d[k] = v]: the value of a key the dict has is replaced where it is, a
    new key goes to the end. *)
Fixpoint dict_set (k : string) (v : PyVal) (d : Dict) : Dict :=
  match d with
  | [] => [(k, v)]
  | (k', v') :: r =>
      if bool_decide (k' = k) then (k', v) :: r else (k', v') :: dict_set k v r
  end.

(** A dict display: the items are set from left to right. *)
Definition dict_of (items : list (string * PyVal)) : Dict :=
  foldl (λ d kv, dict_set kv.1 kv.2 d) [] items.

Definition dict_get (k : string) (d : Dict) : option PyVal := assoc k d.

(** What platform, psutil and torch report.  A number that the source
    prints through a float format is given as the text printed. *)
Record SysFacts := {
  sf_processor : string;       (* platform.processor() *)
  sf_cpu_logical : PyVal;      (* psutil.cpu_count(logical=True) *)
  sf_cpu_physical : PyVal;     (* psutil.cpu_count(logical=False) *)
  sf_cpu_percent : string;     (* psutil.cpu_percent(interval=0.1) *)
  sf_cuda : bool;              (* torch.cuda.is_available() *)
  sf_gpu_count : Z;            (* torch.cuda.device_count() *)
  sf_gpu_name : PyVal;         (* torch.cuda.get_device_name(0) *)
  sf_cuda_version : PyVal;     (* torch.version.cuda *)
  sf_gpu_memory : string;      (* total_memory / 1024 ** 3, one decimal *)
  sf_mem_total : string;       (* mem.total / 1024 ** 3, one decimal *)
  sf_mem_available : string;   (* mem.available / 1024 ** 3, one decimal *)
  sf_mem_percent : string;     (* mem.percent *)
  sf_python : string;          (* platform.python_version() *)
  sf_system : string;          (* platform.system() *)
  sf_release : string;         (* platform.release() *)
  sf_ultralytics : PyVal;      (* ultralytics.__version__ *)
  sf_torch : PyVal             (* torch.__version__ *)
}.

Definition cpu_info (f : SysFacts) : Dict :=
  dict_of
    [("型号", VStr (if bool_decide (sf_processor f = "") then "未知CPU"
                    else sf_processor f));
     ("核心数", VStr (py_str (sf_cpu_logical f) +:+ " (逻辑) / " +:+
                      py_str (sf_cpu_physical f) +:+ " (物理)"));
     ("使用率", VStr (sf_cpu_percent f +:+ "%"))].

Definition gpu_info (f : SysFacts) : Dict :=
  if sf_cuda f then
    dict_set "显存" (VStr (sf_gpu_memory f +:+ "GB"))
      (dict_set "CUDA版本" (sf_cuda_version f)
        (dict_set "型号" (sf_gpu_name f)
          (dict_set "数量" (VInt (sf_gpu_count f)) [])))
  else dict_set "状态" (VStr "无可用GPU / 使用CPU推理") [].

Definition mem_info (f : SysFacts) : Dict :=
  dict_of
    [("总内存", VStr (sf_mem_total f +:+ "GB"));
     ("可用内存", VStr (sf_mem_available f +:+ "GB"));
     ("使用率", VStr (sf_mem_percent f +:+ "%"))].

Definition basic_info (f : SysFacts) : Dict :=
  dict_of
    [("Python版本", VStr (sf_python f));
     ("操作系统", VStr (sf_system f +:+ " " +:+ sf_release f));
     ("Ultralytics版本", sf_ultralytics f);
     ("PyTorch版本", sf_torch f);
     ("推理设备", VStr (if sf_cuda f then "GPU" else "CPU"))].

Definition get_system_info (f : SysFacts) : Dict :=
  dict_of
    ([("=== 系统环境信息 ===", VStr "")] ++ basic_info f ++
     [(NL +:+ "=== CPU信息 ===", VStr "")] ++ cpu_info f ++
     [(NL +:+ "=== GPU信息 ===", VStr "")] ++ gpu_info f ++
     [(NL +:+ "=== 内存信息 ===", VStr "")] ++ mem_info f)%list.

(** [len(s)] of a str held as UTF-8: the bytes that start a character. *)
Fixpoint py_len (s : string) : nat :=
  match s with
  | EmptyString => 0
  | String c r =>
      let n := nat_of_ascii c in
      (if (128 <=? n)%nat && (n <? 192)%nat then 0 else 1) + py_len r
  end.

Fixpoint str_repeat (s : string) (n : nat) : string :=
  match n with
  | O => ""
  | S k => s +:+ str_repeat s k
  end.

(** The format [{s:<width}]: spaces are added on the right up to the
    width. *)
Definition ljust (s : string) (width : nat) : string :=
  s +:+ str_repeat " " (width - py_len s).

Fixpoint is_prefix (p s : string) : bool :=
  match p, s with
  | EmptyString, _ => true
  | String a p', String b s' => bool_decide (a = b) && is_prefix p' s'
  | String _ _, EmptyString => false
  end.

(** [sub in s] *)
Fixpoint str_contains (sub s : string) : bool :=
  is_prefix sub s ||
  match s with
  | EmptyString => false
  | String _ r => str_contains sub r
  end.

(** [print_system_info]: the texts printed, one for each call of [print],
    without the line feed that ends each. *)
Definition print_system_info (f : SysFacts) : list string :=
  let sys_info := get_system_info f in
  ([str_repeat "=" 80; "📋 系统/硬件环境信息"; str_repeat "=" 80] ++
   flat_map (λ kv : string * PyVal,
               if str_contains "===" kv.1 then
                 [""; Color.ESC +:+ "[36m" +:+ kv.1 +:+ Color.ESC +:+ "[0m"]
               else ["  " +:+ ljust kv.1 10 +:+ ": " +:+ py_str kv.2])
     sys_info ++
   [str_repeat "=" 80])%list.

(** * Vocabulary of the properties *)

(** ** What a manager registers *)

#[global] Instance Sink_eq_dec : EqDecision Sink.
Proof. solve_decision. Defined.

Definition rotation : string := pretty LogConfig.MAX_ROTATION_MB +:+ " MB".

Definition file_sink (path : string) : Sink :=
  FileSink path rotation LogConfig.BACKUP_COUNT LogConfig.ENCODING.

Definition file_handler (self : loc) (path level : string) (no : Z) : Handler :=
  {| h_sink := file_sink path; h_level := level; h_levelno := no;
     h_format := FormatStr LogConfig.LOG_FORMAT;
     h_filter := FilterCategory self |}.

Definition console_handler (self : loc) (level : string) (no : Z) : Handler :=
  {| h_sink := PrintSink; h_level := level; h_levelno := no;
     h_format := FormatColored; h_filter := FilterCategory self |}.

Definition log_file_name (cat mode : string) (d : Date) : string :=
  cat +:+ "_" +:+ mode +:+ "_" +:+ strftime_Ymd d +:+ ".log".

Definition date_dir (root : string) (d : Date) : string :=
  os_path_join root (strftime_Ymd d).

Definition log_file_path (root cat mode : string) (d : Date) : string :=
  os_path_join (date_dir root d) (log_file_name cat mode d).

(** The ids and the dates under which the four file handlers were added. *)
Record Registration := {
  id_error : nat; id_warning : nat; id_info : nat; id_debug : nat;
  date_error : Date; date_warning : Date; date_info : Date; date_debug : Date
}.

Definition registered_files (self : loc) (root cat : string)
    (g : Registration) : list (nat * Handler) :=
  [(id_error g, file_handler self
      (log_file_path root cat "error" (date_error g)) "ERROR" 40);
   (id_warning g, file_handler self
      (log_file_path root cat "warning" (date_warning g)) "WARNING" 30);
   (id_info g, file_handler self
      (log_file_path root cat "info" (date_info g)) "INFO" 20);
   (id_debug g, file_handler self
      (log_file_path root cat "debug" (date_debug g)) "DEBUG" 10)].

(** The logger's handlers are the five that the manager [self] registered:
    the file handlers for ERROR, WARNING, INFO and DEBUG, in the order of
    [_config_file_handlers], then the console handler [c] at [run_mode]. *)
Record installed_with (self : loc) (w : World) (m : LogManager)
    (g : Registration) (c : nat) (no : Z) : Prop := {
  inst_heap : w_heap w !! self = Some m;
  inst_error : file_handlers m !! "error" = Some (id_error g);
  inst_warning : file_handlers m !! "warning" = Some (id_warning g);
  inst_info : file_handlers m !! "info" = Some (id_info g);
  inst_debug : file_handlers m !! "debug" = Some (id_debug g);
  inst_console : console_handler_id m = Some c;
  inst_valid : run_mode m ∈ LogConfig.VALID_LEVELS;
  inst_no : level_no (run_mode m) = Some no;
  inst_handlers :
    w_handlers w =
      (registered_files self (log_path m) (category m) g ++
       [(c, console_handler self (run_mode m) no)])%list;
  inst_order :
    id_error g < id_warning g ∧ id_warning g < id_info g ∧
    id_info g < id_debug g ∧ id_debug g < c ∧ c < w_handlers_count w
}.

Definition installed (self : loc) (w : World) : Prop :=
  ∃ m g c no, installed_with self w m g c no.

(** ** Records and what the sinks received *)

(** The record that a method of the manager [m] emits. *)
Definition record_of (m : LogManager) (level : string) (no : Z)
    (msg : string) : LogRecord :=
  {| r_level := level; r_levelno := no; r_message := msg;
     r_extra := LogManager.bound m |}.

(** The method of the manager that logs at the level named [V]. *)
Definition emit_via (V : string) : loc → string → M unit :=
  if bool_decide (V = "DEBUG") then LogManager.debug
  else if bool_decide (V = "INFO") then LogManager.info
  else if bool_decide (V = "WARNING") then LogManager.warning
  else LogManager.error.

Definition event_of (r : LogRecord) (p : nat * Handler) : Event :=
  {| e_handler := p.1; e_sink := h_sink p.2; e_record := r |}.


(** The records handed to the sink of handler [id], oldest first. *)
Definition handler_out (id : nat) (w : World) : list LogRecord :=
  e_record <$> filter (λ e, e_handler e = id) (w_out w).

(** The order of severities, by [LogConfig.LEVEL_PRIORITY]. *)
Definition priority (s : string) : option Z := assoc s LogConfig.LEVEL_PRIORITY.

Definition below (V L : string) : bool :=
  match priority V, priority L with
  | Some a, Some b => bool_decide (a < b)%Z
  | _, _ => false
  end.

(** The keys of [self.file_handlers] with the level of each file handler, as
    [_config_file_handlers] pairs them. *)
Definition file_modes : list (string * string) :=
  [("error", "ERROR"); ("warning", "WARNING"); ("info", "INFO");
   ("debug", "DEBUG")].


(** ** The predictor and the main block *)

(** The wrapper that the dispatch on [mode] in the constructor builds, if it
    builds one. *)
Definition built_model (model_path mode : string) : option Model :=
  if bool_decide (mode ∈ ["image"; "video2img"]) then Some (SAM model_path)
  else if bool_decide (mode = "video") then
    Some (SAM2VideoPredictor (SAMPredictor.video_overrides model_path))
  else if bool_decide (mode = "DynVideo") then
    Some (SAM2DynamicInteractivePredictor SAMPredictor.dyn_overrides 10)
  else None.

(** [w'] differs from [w] by records handed to sinks only. *)
Definition only_logged (w w' : World) : Prop :=
  w_handlers w' = w_handlers w ∧
  w_handlers_count w' = w_handlers_count w ∧
  w_heap w' = w_heap w ∧
  w_predict w' = w_predict w ∧
  w_calls w' = w_calls w ∧
  w_saved w' = w_saved w ∧
  ∃ evs, w_out w' = (w_out w ++ evs)%list.

(** The invocation that [__call__] makes: the input and the keyword
    arguments [points] and [labels]. *)
Definition call_of (model : Model) (input_data points labels : PyVal)
    : ModelCall :=
  {| mc_model := model; mc_source := input_data;
     mc_kwargs := {[ "points" := points; "labels" := labels ]} |}.

(** What the main block saves after the inference call. *)
Definition saved_of (results : list Result) (path : string)
    : list (Result * PyVal) :=
  match results with
  | [r] => [(r, VStr path)]
  | _ => []
  end.

(** The last statement of [main_inference], on the results of the call. *)
Definition handle_results (args : Args) (config : Config) (log_manager : loc)
    (results : list Result) : M unit :=
  match results with
  | [r] => result_save r (VStr (output_data_path config))
  | _ :: _ :: _ =>
      LogManager.warning log_manager
        ("⚠️  多个结果，请自行处理， 选择模式为 " +:+ args_mode args)
  | [] => LogManager.error log_manager "❌ 未处理任何样本"
  end.

(** The library constructor that built a wrapper. *)
Definition constructor_name (model : Model) : string :=
  match model with
  | SAM _ => "SAM"
  | SAM2VideoPredictor _ => "SAM2VideoPredictor"
  | SAM2DynamicInteractivePredictor _ _ => "SAM2DynamicInteractivePredictor"
  end.

(** The modes for which the constructor builds a wrapper. *)
Definition init_modes : list string :=
  ["image"; "video2img"; "video"; "DynVideo"].

(** ** Concrete inputs *)

Definition date_example : Date := {| year := 2026; month := 1; day := 5 |}.

(** A process at start: no handler, no manager, the configuration file and
    the input on disk, a library that answers every call with one result. *)
Definition world_example : World :=
  {| w_handlers := []; w_handlers_count := 0; w_heap := ∅;
     w_paths := {[ "./config/sam_2.yaml"; "in.jpg" ]};
     w_clock := λ _, date_example; w_tick := 0; w_out := [];
     w_predict := λ _, [7]; w_calls := []; w_saved := [] |}.

(** The same with a library that answers every call with two results. *)
Definition world_two_results : World :=
  {| w_handlers := []; w_handlers_count := 0; w_heap := ∅;
     w_paths := {[ "./config/sam_2.yaml"; "in.jpg" ]};
     w_clock := λ _, date_example; w_tick := 0; w_out := [];
     w_predict := λ _, [7; 8]; w_calls := []; w_saved := [] |}.

Definition config_example : Config :=
  {| input_data_path := "in.jpg"; output_data_path := "out";
     model_path := "sam2_b.pt";
     bboxes := VList [VList [VInt 10; VInt 20; VInt 30; VInt 40]];
     points := VList [VList [VInt 15; VInt 25]];
     labels := VList [VInt 1] |}.

Definition argv_with_mode (mode : option string) : Argv :=
  {| argv_config := None; argv_log_level := None; argv_mode := mode |}.

(** Lines 159 to 174, then lines 192 to 202 of the main block.  Lines 176
    to 190 between them print the system information and log the arguments
    and the configuration at INFO; they are left out. *)
Definition run_main (argv : Argv) (config : Config) : M unit :=
  x <- main_setup argv config "0.10" ;;
  main_inference x.1.1 config x.1.2 x.2.

(** The state after [LogManager("./logs/", "INFO", "default")]; the manager
    is at location 0. *)
Definition world_installed : World :=
  (LogManager.__init__ "./logs/" "INFO" "default" world_example).2.

Definition registration_example : Registration :=
  {| id_error := 0; id_warning := 1; id_info := 2; id_debug := 3;
     date_error := date_example; date_warning := date_example;
     date_info := date_example; date_debug := date_example |}.

Definition manager_example : LogManager :=
  {| log_path := "./logs/"; run_mode := "INFO"; category := "default";
     file_handlers :=
       <["debug" := 3]> (<["info" := 2]> (<["warning" := 1]>
         (<["error" := 0]> ∅)));
     console_handler_id := Some 4 |}.

Definition predictor_example : SAMPredictor :=
  {| sp_log_manager := Some 0; sp_mode := "video2img";
     sp_model := Some (SAM "sam2_b.pt") |}.

Definition args_example : Args :=
  {| args_config := "./config/sam_2.yaml"; args_log_level := "DEBUG";
     args_mode := "video2img" |}.

(** The wrapper a run of the constructor built, if any. *)
Definition model_built (r : (Exn + SAMPredictor) * World) : option Model :=
  match r.1 with
  | inr sp => sp_model sp
  | inl _ => None
  end.

(** ** Sequences of calls *)




(** ** The predictor, the command line and the main block, further *)

(** The model file a wrapper loads. *)
Definition model_file (model : Model) : string :=
  match model with
  | SAM p => p
  | SAM2VideoPredictor ov => ov_model ov
  | SAM2DynamicInteractivePredictor ov _ => ov_model ov
  end.

(** An option is absent or holds one of the choices. *)
Definition choice_ok (given : option string) (choices : list string) : bool :=
  match given with
  | None => true
  | Some v => bool_decide (v ∈ choices)
  end.

Definition argv_ok (argv : Argv) : bool :=
  choice_ok (argv_log_level argv) log_level_choices &&
  choice_ok (argv_mode argv) mode_choices.

(** The arguments [parse_args] returns for an accepted command line. *)
Definition args_of (argv : Argv) : Args :=
  {| args_config := default "./config/sam_2.yaml" (argv_config argv);
     args_log_level := default "DEBUG" (argv_log_level argv);
     args_mode := default "video2img" (argv_mode argv) |}.


(** ** Text without colours *)





(** The keys of the dict of [get_system_info], in order. *)
Definition system_info_keys (cuda : bool) : list string :=
  (["=== 系统环境信息 ==="; "Python版本"; "操作系统"; "Ultralytics版本";
    "PyTorch版本"; "推理设备"; NL +:+ "=== CPU信息 ==="; "型号"; "核心数";
    "使用率"; NL +:+ "=== GPU信息 ==="] ++
   (if cuda then ["数量"; "CUDA版本"; "显存"] else ["状态"]) ++
   [NL +:+ "=== 内存信息 ==="; "总内存"; "可用内存"])%list.

(** ** Further concrete inputs *)

(** The state after a second manager, of category [other], was made in
    [world_installed]; it is at location 1. *)
Definition world_superseded : World :=
  (LogManager.__init__ "./logs/" "INFO" "other" world_installed).2.





(** * Properties *)

(** ** Stepping through the monad *)

Lemma bind_inr {A B} (c : M A) (k : A → M B) w a w' :
  c w = (inr a, w') → bind c k w = k a w'.
Proof. intros H. unfold bind. by rewrite H. Qed.

Lemma bind_inl {A B} (c : M A) (k : A → M B) w e w' :
  c w = (inl e, w') → bind c k w = (inl e, w').
Proof. intros H. unfold bind. by rewrite H. Qed.

Lemma deref_Some self w m :
  w_heap w !! self = Some m → deref self w = (inr m, w).
Proof. intros H. unfold deref. by rewrite H. Qed.

Lemma valid_levels_cases (s : string) :
  s ∈ LogConfig.VALID_LEVELS →
  s = "DEBUG" ∨ s = "INFO" ∨ s = "WARNING" ∨ s = "ERROR".
Proof.
  unfold LogConfig.VALID_LEVELS. rewrite !elem_of_cons, elem_of_nil. tauto.
Qed.

Lemma valid_level_no (s : string) :
  s ∈ LogConfig.VALID_LEVELS → ∃ no, level_no s = Some no.
Proof.
  intros H. destruct (valid_levels_cases s H) as [-> | [-> | [-> | ->]]]; eauto.
Qed.

Lemma get_log_file_path_ok self mode w m :
  w_heap w !! self = Some m →
  LogManager._get_log_file_path self mode w =
    (inr (log_file_path (log_path m) (category m) mode (w_clock w (w_tick w))),
     set_paths (λ s, {[date_dir (log_path m) (w_clock w (w_tick w))]} ∪ s)
       (set_tick (S (w_tick w)) w)).
Proof.
  intros Hm. unfold LogManager._get_log_file_path.
  rewrite (bind_inr _ _ _ _ _ (deref_Some _ _ _ Hm)).
  unfold bind, time_strftime_Ymd, os_makedirs, os_path_exists, modify, gets.
  cbn. rewrite bool_decide_true by set_solver. reflexivity.
Qed.

Lemma alter_lookup_insert (h : gmap loc LogManager) self m f :
  h !! self = Some m → alter f self h = <[self := f m]> h.
Proof.
  intros H. apply map_eq. intros j. destruct (decide (self = j)) as [->|Hne].
  - by rewrite lookup_alter_eq, lookup_insert_eq, H.
  - by rewrite lookup_alter_ne, lookup_insert_ne.
Qed.

Lemma update_ok self f w m :
  w_heap w !! self = Some m →
  update self f w = (inr (), set_heap <[self := f m]> w).
Proof.
  intros H. unfold update, modify, set_heap.
  by rewrite (alter_lookup_insert _ _ _ _ H).
Qed.

Lemma log_add_ok sink level fmt flt no w :
  level_no level = Some no →
  log.add sink level fmt flt w =
    (inr (w_handlers_count w),
     set_handlers (λ hs, (hs ++ [(w_handlers_count w,
        {| h_sink := sink; h_level := level; h_levelno := no;
           h_format := fmt; h_filter := flt |})])%list)
       (set_handlers_count (S (w_handlers_count w)) w)).
Proof.
  intros H. unfold log.add, bind, gets, modify, ret. by rewrite H.
Qed.

(** A block of [_config_file_handlers] when its key is not yet in
    [self.file_handlers], as in the constructor. *)
Lemma config_file_handler_new self mode level no w m :
  w_heap w !! self = Some m →
  file_handlers m !! mode = None →
  level_no level = Some no →
  LogManager.config_file_handler self mode level w =
    (inr (),
     set_heap <[self := with_file_handlers <[mode := w_handlers_count w]> m]>
       (set_handlers (λ hs, (hs ++ [(w_handlers_count w,
           file_handler self
             (log_file_path (log_path m) (category m) mode
                (w_clock w (w_tick w))) level no)])%list)
         (set_handlers_count (S (w_handlers_count w))
           (set_paths (λ s, {[date_dir (log_path m) (w_clock w (w_tick w))]} ∪ s)
             (set_tick (S (w_tick w)) w))))).
Proof.
  intros Hm Hnew Hno. unfold LogManager.config_file_handler.
  rewrite (bind_inr _ _ _ _ _ (deref_Some _ _ _ Hm)). rewrite Hnew.
  unfold bind at 1. unfold ret at 1.
  rewrite (bind_inr _ _ _ _ _ (get_log_file_path_ok _ mode _ _ Hm)).
  erewrite bind_inr; [|by apply log_add_ok].
  rewrite (update_ok _ _ _ m) by done. reflexivity.
Qed.

Lemma log_remove_ok id w :
  id ∈ (w_handlers w).*1 →
  log.remove id w = (inr (), set_handlers (filter (λ p, p.1 ≠ id)) w).
Proof. intros H. unfold log.remove. by rewrite bool_decide_true. Qed.

Lemma config_console_handler_new self no w m :
  w_heap w !! self = Some m →
  console_handler_id m = None →
  level_no (run_mode m) = Some no →
  LogManager._config_console_handler self w =
    (inr (),
     set_heap <[self := with_console_handler_id (Some (w_handlers_count w)) m]>
       (set_handlers (λ hs, (hs ++ [(w_handlers_count w,
           console_handler self (run_mode m) no)])%list)
         (set_handlers_count (S (w_handlers_count w)) w))).
Proof.
  intros Hm Hc Hno. unfold LogManager._config_console_handler.
  rewrite (bind_inr _ _ _ _ _ (deref_Some _ _ _ Hm)). rewrite Hc.
  unfold bind at 1. unfold ret at 1.
  rewrite (bind_inr _ _ _ _ _ (deref_Some _ _ _ Hm)).
  erewrite bind_inr; [|by apply log_add_ok].
  rewrite (update_ok _ _ _ m) by done. reflexivity.
Qed.

Ltac heap_lookup :=
  cbn; rewrite ?lookup_insert_eq; try reflexivity.

Ltac key_fresh :=
  cbn; rewrite ?lookup_insert_ne by done; apply lookup_empty.

(** The constructor, on a valid level: the object it allocates and the state
    it leaves. *)
Lemma init_spec lp rm cat w no :
  upper rm ∈ LogConfig.VALID_LEVELS →
  level_no (upper rm) = Some no →
  let self := fresh (dom (w_heap w)) in
  let n := w_handlers_count w in
  let t := w_tick w in
  ∃ w',
    LogManager.__init__ lp rm cat w = (inr self, w') ∧
    w_handlers w' =
      [(n, file_handler self (log_file_path lp cat "error" (w_clock w t))
             "ERROR" 40);
       (1 + n, file_handler self
             (log_file_path lp cat "warning" (w_clock w (1 + t))) "WARNING" 30);
       (2 + n, file_handler self
             (log_file_path lp cat "info" (w_clock w (2 + t))) "INFO" 20);
       (3 + n, file_handler self
             (log_file_path lp cat "debug" (w_clock w (3 + t))) "DEBUG" 10);
       (4 + n, console_handler self (upper rm) no)] ∧
    w_handlers_count w' = 5 + n ∧
    w_heap w' !! self =
      Some {| log_path := lp; run_mode := upper rm; category := cat;
              file_handlers :=
                <["debug" := 3 + n]> (<["info" := 2 + n]>
                  (<["warning" := 1 + n]> (<["error" := n]> ∅)));
              console_handler_id := Some (4 + n) |} ∧
    w_heap w !! self = None ∧
    (∀ l, l ≠ self → w_heap w' !! l = w_heap w !! l) ∧
    w_out w' = w_out w ∧ w_tick w' = 4 + t ∧ w_clock w' = w_clock w ∧
    w_predict w' = w_predict w ∧ w_calls w' = w_calls w ∧
    w_saved w' = w_saved w.
Proof.
  intros Hv Hno self n t. unfold LogManager.__init__.
  rewrite bool_decide_true by done. cbn [negb].
  unfold bind at 1. unfold alloc at 1. fold self.
  unfold bind at 1. unfold os_makedirs at 1, modify at 1.
  unfold bind at 1. unfold log.remove_all at 1, modify at 1.
  unfold LogManager._config_file_handlers.
  erewrite bind_inr;
    [| erewrite bind_inr;
       [| apply config_file_handler_new with (no := 40%Z);
          [heap_lookup | key_fresh | reflexivity] ];
       erewrite bind_inr;
       [| apply config_file_handler_new with (no := 30%Z);
          [heap_lookup | key_fresh | reflexivity] ];
       erewrite bind_inr;
       [| apply config_file_handler_new with (no := 20%Z);
          [heap_lookup | key_fresh | reflexivity] ];
       apply config_file_handler_new with (no := 10%Z);
         [heap_lookup | key_fresh | reflexivity] ].
  erewrite bind_inr;
    [| apply config_console_handler_new with (no := no);
       [heap_lookup | reflexivity | exact Hno] ].
  eexists. split; [reflexivity|]. cbn.
  rewrite lookup_insert_eq.
  repeat split; try reflexivity.
  - apply not_elem_of_dom, is_fresh.
  - intros l Hl. by rewrite !lookup_insert_ne.
Qed.

Lemma init_installed lp rm cat w :
  upper rm ∈ LogConfig.VALID_LEVELS →
  ∃ self w' g c no,
    LogManager.__init__ lp rm cat w = (inr self, w') ∧
    installed_with self w'
      {| log_path := lp; run_mode := upper rm; category := cat;
         file_handlers :=
           <["debug" := id_debug g]> (<["info" := id_info g]>
             (<["warning" := id_warning g]> (<["error" := id_error g]> ∅)));
         console_handler_id := Some c |} g c no ∧
    w_out w' = w_out w.
Proof.
  intros Hv. destruct (valid_level_no _ Hv) as [no Hno].
  destruct (init_spec lp rm cat w no Hv Hno)
    as (w' & Hrun & Hh & Hc & Hheap & _ & _ & Hout & _).
  exists (fresh (dom (w_heap w))), w',
    {| id_error := w_handlers_count w; id_warning := 1 + w_handlers_count w;
       id_info := 2 + w_handlers_count w; id_debug := 3 + w_handlers_count w;
       date_error := w_clock w (w_tick w);
       date_warning := w_clock w (1 + w_tick w);
       date_info := w_clock w (2 + w_tick w);
       date_debug := w_clock w (3 + w_tick w) |},
    (4 + w_handlers_count w), no.
  split; [exact Hrun|]. split; [|exact Hout].
  constructor; cbn [id_error id_warning id_info id_debug file_handlers
    console_handler_id run_mode log_path category]; try done.
  rewrite Hc. cbn. lia.
Qed.

Lemma filter_registered self root cat g c h n :
  id_error g < id_warning g ∧ id_warning g < id_info g ∧
  id_info g < id_debug g ∧ id_debug g < c ∧ c < n →
  filter (λ p : nat * Handler, p.1 ≠ c)
    (registered_files self root cat g ++ [(c, h)])%list =
  registered_files self root cat g.
Proof.
  intros Ho. unfold registered_files. cbn [app].
  repeat (rewrite filter_cons_True by (cbn; lia)).
  rewrite filter_cons_False by (cbn; auto). reflexivity.
Qed.

Lemma config_console_handler_replace self c no w m :
  w_heap w !! self = Some m →
  console_handler_id m = Some c →
  c ∈ (w_handlers w).*1 →
  level_no (run_mode m) = Some no →
  LogManager._config_console_handler self w =
    (inr (),
     set_heap <[self := with_console_handler_id (Some (w_handlers_count w)) m]>
       (set_handlers (λ hs, (hs ++ [(w_handlers_count w,
           console_handler self (run_mode m) no)])%list)
         (set_handlers_count (S (w_handlers_count w))
           (set_handlers (filter (λ p, p.1 ≠ c)) w)))).
Proof.
  intros Hm Hc Hin Hno. unfold LogManager._config_console_handler.
  rewrite (bind_inr _ _ _ _ _ (deref_Some _ _ _ Hm)). rewrite Hc.
  rewrite (bind_inr _ _ _ _ _ (log_remove_ok _ _ Hin)).
  erewrite bind_inr; [|by apply deref_Some].
  erewrite bind_inr; [|by apply log_add_ok].
  rewrite (update_ok _ _ _ m) by done. reflexivity.
Qed.

(** ** Records emitted through a manager *)

Lemma bind_log_ok extra level no msg w :
  level_no level = Some no →
  log.bind_log extra level msg w =
    (inr (), set_out (λ out, (out ++ log.deliveries
       {| r_level := level; r_levelno := no; r_message := msg;
          r_extra := extra |} w)%list) w).
Proof. intros H. unfold log.bind_log. by rewrite H. Qed.

Lemma emit_via_ok V v self msg w m :
  V ∈ LogConfig.VALID_LEVELS →
  level_no V = Some v →
  w_heap w !! self = Some m →
  emit_via V self msg w =
    (inr (), set_out (λ out,
       (out ++ log.deliveries (record_of m V v msg) w)%list) w).
Proof.
  intros HV Hv Hm.
  destruct (valid_levels_cases V HV) as [-> | [-> | [-> | ->]]].
  - change (emit_via "DEBUG") with LogManager.debug. unfold LogManager.debug.
    rewrite (bind_inr _ _ _ _ _ (deref_Some _ _ _ Hm)).
    apply bind_log_ok, Hv.
  - change (emit_via "INFO") with LogManager.info. unfold LogManager.info.
    rewrite (bind_inr _ _ _ _ _ (deref_Some _ _ _ Hm)).
    apply bind_log_ok, Hv.
  - change (emit_via "WARNING") with LogManager.warning.
    unfold LogManager.warning.
    rewrite (bind_inr _ _ _ _ _ (deref_Some _ _ _ Hm)).
    apply bind_log_ok, Hv.
  - change (emit_via "ERROR") with LogManager.error. unfold LogManager.error.
    rewrite (bind_inr _ _ _ _ _ (deref_Some _ _ _ Hm)).
    apply bind_log_ok, Hv.
Qed.

Lemma handler_accepts_own self w m h lvl v msg :
  w_heap w !! self = Some m →
  h_filter h = FilterCategory self →
  log.handler_accepts h (record_of m lvl v msg) w =
    bool_decide (h_levelno h ≤ v)%Z.
Proof.
  intros Hm Hf. unfold log.handler_accepts, log.filter_accepts.
  rewrite Hf, Hm. cbn [record_of r_extra r_levelno]. unfold LogManager.bound.
  rewrite lookup_singleton_eq, (bool_decide_true (Some _ = Some _)) by done.
  apply andb_true_r.
Qed.

(** Where a record bound to the manager's category goes when the manager is
    installed: to each handler whose level it reaches. *)
Lemma deliveries_installed self w m g c no lvl v msg :
  installed_with self w m g c no →
  log.deliveries (record_of m lvl v msg) w =
    map (event_of (record_of m lvl v msg))
      (filter (λ p : nat * Handler, (h_levelno p.2 ≤ v)%Z) (w_handlers w)).
Proof.
  intros Hi. unfold log.deliveries.
  assert (Hall : Forall (λ p : nat * Handler, h_filter p.2 = FilterCategory self)
                   (w_handlers w)).
  { rewrite (inst_handlers _ _ _ _ _ _ Hi). unfold registered_files.
    repeat constructor. }
  induction Hall as [|p l Hp Hl IH]; [reflexivity|].
  cbn [omap list_omap].
  rewrite (handler_accepts_own self w m _ _ _ _ (inst_heap _ _ _ _ _ _ Hi) Hp).
  destruct (decide (h_levelno p.2 ≤ v)%Z) as [Hle|Hle].
  - rewrite bool_decide_true, filter_cons_True by done.
    cbn [map]. f_equal. apply IH.
  - rewrite bool_decide_false, filter_cons_False by done. apply IH.
Qed.

Lemma installed_with_frame self w w' m g c no :
  installed_with self w m g c no →
  w_handlers w' = w_handlers w →
  w_handlers_count w' = w_handlers_count w →
  w_heap w' = w_heap w →
  installed_with self w' m g c no.
Proof.
  intros [] Hh Hc Hp. constructor; rewrite ?Hh, ?Hc, ?Hp; assumption.
Qed.

Lemma upper_valid (L : string) :
  L ∈ LogConfig.VALID_LEVELS → upper L = L.
Proof.
  intros H. by destruct (valid_levels_cases L H) as [-> | [-> | [-> | ->]]].
Qed.

(** [set_log_level] on a valid level, for an installed manager: it returns,
    the manager stays installed with the same file handlers, and its console
    handler is at the new level. *)
Lemma set_log_level_ok self L w m g c no :
  installed_with self w m g c no →
  upper L ∈ LogConfig.VALID_LEVELS →
  ∃ w' c' no' msg,
    LogManager.set_log_level self L w = (inr (), w') ∧
    installed_with self w'
      (with_console_handler_id (Some c') (with_run_mode (upper L) m))
      g c' no' ∧
    w_out w' =
      (w_out w ++ log.deliveries
         (record_of (with_console_handler_id (Some c')
                       (with_run_mode (upper L) m)) "INFO" 20 msg) w')%list ∧
    (∀ l, l ≠ self → w_heap w' !! l = w_heap w !! l) ∧
    w_calls w' = w_calls w ∧ w_saved w' = w_saved w ∧
    w_predict w' = w_predict w.
Proof.
  intros Hi HL. pose proof Hi as [Hm He Hw Hin Hd Hc Hv Hno Hh Ho].
  unfold LogManager.set_log_level.
  rewrite bool_decide_true by done. cbn [negb].
  rewrite (bind_inr _ _ _ _ _ (deref_Some _ _ _ Hm)).
  destruct (decide (run_mode m = upper L)) as [Heq|Hne].
  - rewrite bool_decide_true by done.
    assert (Hsame : with_console_handler_id (Some c)
                      (with_run_mode (upper L) m) = m).
    { destruct m; cbn in *. by subst. }
    eexists _, c, no, _. rewrite Hsame.
    split; [by apply bind_log_ok|].
    split; [by apply (installed_with_frame _ w)|]. done.
  - rewrite bool_decide_false by done.
    destruct (valid_level_no _ HL) as [no' Hno'].
    rewrite (bind_inr _ _ _ _ _ (update_ok _ _ _ _ Hm)).
    erewrite bind_inr;
      [| apply config_console_handler_replace with (c := c) (no := no');
         [heap_lookup | exact Hc | | exact Hno'] ].
    2:{ cbn. rewrite Hh, fmap_app. apply elem_of_app. right. cbn.
        apply elem_of_cons. by left. }
    erewrite bind_inr; [| apply deref_Some; heap_lookup ].
    eexists _, (w_handlers_count w), no', _.
    split; [by apply bind_log_ok|].
    split; [|split; [reflexivity|]].
    + constructor; cbn; try done.
      * by rewrite lookup_insert_eq.
      * rewrite Hh. by rewrite (filter_registered _ _ _ _ _ _ _ Ho).
      * lia.
    + repeat split. intros l Hl. cbn. by rewrite !lookup_insert_ne.
Qed.

(** ** The console threshold and the file handlers *)

Ltac four_levels H :=
  destruct (valid_levels_cases _ H) as [-> | [-> | [-> | ->]]].


Lemma set_log_level_invalid self L w :
  upper L ∉ LogConfig.VALID_LEVELS →
  LogManager.set_log_level self L w =
    (inl (ValueError ("无效的日志级别：" +:+ upper L +:+ "，合法级别："
                      +:+ LogConfig.VALID_LEVELS_str)), w).
Proof.
  intros H. unfold LogManager.set_log_level.
  by rewrite bool_decide_false.
Qed.

(** Whatever its argument and its outcome, [set_log_level] leaves an
    installed manager installed, under the same registration of its file
    handlers. *)
Lemma set_log_level_any self L w res w1 m g c no :
  installed_with self w m g c no →
  LogManager.set_log_level self L w = (res, w1) →
  ∃ m1 c1 no1,
    installed_with self w1 m1 g c1 no1 ∧
    file_handlers m1 = file_handlers m ∧
    log_path m1 = log_path m ∧ category m1 = category m.
Proof.
  intros Hi Hrun.
  destruct (decide (upper L ∈ LogConfig.VALID_LEVELS)) as [HL|HL].
  - destruct (set_log_level_ok self L w m g c no Hi HL)
      as (w' & c' & no' & imsg & Hrun' & Hi' & _).
    rewrite Hrun' in Hrun. injection Hrun as <- <-.
    by eexists _, c', no'.
  - rewrite (set_log_level_invalid _ _ _ HL) in Hrun.
    injection Hrun as <- <-. by exists m, c, no.
Qed.

Lemma no_event_of_absent_handler r (P : nat * Handler → Prop)
    `{!∀ p, Decision (P p)} (hs : list (nat * Handler)) id :
  id ∉ hs.*1 →
  filter (λ e, e_handler e = id) (map (event_of r) (filter P hs)) = [].
Proof.
  induction hs as [|p hs IH]; intros Hid; [reflexivity|].
  rewrite fmap_cons, not_elem_of_cons in Hid. destruct Hid as [Hne Hid].
  destruct (decide (P p)).
  - rewrite filter_cons_True by done. cbn [map].
    rewrite filter_cons_False by (cbn; congruence). by apply IH.
  - rewrite filter_cons_False by done. by apply IH.
Qed.

(** With distinct handler ids, a record reaches the sink of handler [id]
    once if the handler takes it, and not at all otherwise. *)
Lemma events_of_handler r (P : nat * Handler → Prop)
    `{!∀ p, Decision (P p)} (hs : list (nat * Handler)) id h :
  NoDup hs.*1 →
  (id, h) ∈ hs →
  e_record <$> filter (λ e, e_handler e = id)
                 (map (event_of r) (filter P hs)) =
    if decide (P (id, h)) then [r] else [].
Proof.
  induction hs as [|p hs IH]; intros Hnd Hin.
  - by apply elem_of_nil in Hin.
  - rewrite fmap_cons in Hnd. apply NoDup_cons in Hnd as [Hp Hnd].
    apply elem_of_cons in Hin as [<-|Hin].
    + destruct (decide (P (id, h))).
      * rewrite filter_cons_True by done. cbn [map].
        rewrite filter_cons_True by done.
        rewrite (no_event_of_absent_handler r P hs id Hp). reflexivity.
      * rewrite filter_cons_False by done.
        rewrite (no_event_of_absent_handler r P hs id Hp). reflexivity.
    + assert (p.1 ≠ id).
      { intros <-. apply Hp. apply list_elem_of_fmap. by exists (p.1, h). }
      destruct (decide (P p)).
      * rewrite filter_cons_True by done. cbn [map].
        rewrite filter_cons_False by (cbn; congruence). by apply IH.
      * rewrite filter_cons_False by done. by apply IH.
Qed.

Lemma installed_ids_NoDup self w m g c no :
  installed_with self w m g c no → NoDup (w_handlers w).*1.
Proof.
  intros Hi. rewrite (inst_handlers _ _ _ _ _ _ Hi).
  pose proof (inst_order _ _ _ _ _ _ Hi) as Ho. cbn.
  repeat (apply NoDup_cons; split;
          [rewrite ?elem_of_cons, elem_of_nil; lia|]).
  apply NoDup_nil_2.
Qed.

(** What one more message through the manager adds to a handler's sink. *)
Lemma handler_out_emit self w m g c no V v msg id h :
  installed_with self w m g c no →
  V ∈ LogConfig.VALID_LEVELS →
  level_no V = Some v →
  (id, h) ∈ w_handlers w →
  ∃ w2,
    emit_via V self msg w = (inr (), w2) ∧
    handler_out id w2 =
      (handler_out id w ++
       if decide (h_levelno h ≤ v)%Z then [record_of m V v msg] else [])%list.
Proof.
  intros Hi HV Hv Hin. eexists.
  split; [by apply (emit_via_ok V v self msg w m HV Hv), Hi|].
  unfold handler_out. cbn [w_out set_out].
  rewrite filter_app, fmap_app. f_equal.
  rewrite (deliveries_installed _ _ _ _ _ _ _ _ _ Hi).
  rewrite (events_of_handler _ (λ p, (h_levelno p.2 ≤ v)%Z) _ id h);
    [reflexivity | by eapply installed_ids_NoDup | done].
Qed.

Lemma file_part_installed self w m g c no :
  installed_with self w m g c no →
  filter (λ p : nat * Handler, h_sink p.2 ≠ PrintSink) (w_handlers w) =
    registered_files self (log_path m) (category m) g.
Proof.
  intros Hi. rewrite (inst_handlers _ _ _ _ _ _ Hi). reflexivity.
Qed.

Lemma file_mode_installed self w m g c no key lvl :
  installed_with self w m g c no →
  (key, lvl) ∈ file_modes →
  ∃ id h,
    file_handlers m !! key = Some id ∧
    (id, h) ∈ registered_files self (log_path m) (category m) g ∧
    h_level h = lvl ∧ level_no lvl = Some (h_levelno h) ∧
    h_sink h ≠ PrintSink.
Proof.
  intros Hi Hk. unfold file_modes in Hk.
  rewrite !elem_of_cons, elem_of_nil in Hk.
  unfold registered_files.
  destruct Hk as [Hk | [Hk | [Hk | [Hk | []]]]]; injection Hk as -> ->;
    eexists _, _;
    (split; [first [ exact (inst_error _ _ _ _ _ _ Hi)
                   | exact (inst_warning _ _ _ _ _ _ Hi)
                   | exact (inst_info _ _ _ _ _ _ Hi)
                   | exact (inst_debug _ _ _ _ _ _ Hi) ] |]);
    (split; [rewrite !elem_of_cons; eauto 6 |]); done.
Qed.

(** C7. Any call of [set_log_level], whatever its argument and its outcome,
    leaves [self.file_handlers] and the four file handlers of the logger as
    they were; a message logged through the manager afterwards at a valid
    level [V] still reaches the file of every level that [V] is not below. *)
Theorem set_log_level_keeps_file_handlers self w L res w1 :
  installed self w →
  LogManager.set_log_level self L w = (res, w1) →
  ∃ m m1,
    w_heap w !! self = Some m ∧ w_heap w1 !! self = Some m1 ∧
    file_handlers m1 = file_handlers m ∧
    filter (λ p : nat * Handler, h_sink p.2 ≠ PrintSink) (w_handlers w1) =
      filter (λ p : nat * Handler, h_sink p.2 ≠ PrintSink) (w_handlers w) ∧
    ∀ key lvl, (key, lvl) ∈ file_modes →
      ∃ id h,
        file_handlers m !! key = Some id ∧
        (id, h) ∈ w_handlers w ∧ (id, h) ∈ w_handlers w1 ∧
        h_level h = lvl ∧ h_sink h ≠ PrintSink ∧
        ∀ V msg, V ∈ LogConfig.VALID_LEVELS →
          ∃ w2 r,
            emit_via V self msg w1 = (inr (), w2) ∧
            r_level r = V ∧ r_message r = msg ∧
            handler_out id w2 =
              (handler_out id w1 ++ if below V lvl then [] else [r])%list.
Proof.
  intros (m & g & c & no & Hi) Hrun.
  destruct (set_log_level_any self L w res w1 m g c no Hi Hrun)
    as (m1 & c1 & no1 & Hi1 & Hfh & Hlp & Hcat).
  exists m, m1.
  split; [apply Hi|]. split; [apply Hi1|]. split; [exact Hfh|].
  split.
  { rewrite (file_part_installed _ _ _ _ _ _ Hi),
      (file_part_installed _ _ _ _ _ _ Hi1). by rewrite Hlp, Hcat. }
  intros key lvl Hk.
  destruct (file_mode_installed _ _ _ _ _ _ key lvl Hi Hk)
    as (id & h & Hid & Hin & Hlvl & Hno & Hsink).
  assert (Hin0 : (id, h) ∈ w_handlers w).
  { rewrite (inst_handlers _ _ _ _ _ _ Hi). apply elem_of_app. by left. }
  assert (Hin1 : (id, h) ∈ w_handlers w1).
  { rewrite (inst_handlers _ _ _ _ _ _ Hi1), Hlp, Hcat.
    apply elem_of_app. by left. }
  exists id, h. repeat (split; [done|]).
  intros V msg HV. destruct (valid_level_no V HV) as [v Hv].
  destruct (handler_out_emit self w1 m1 g c1 no1 V v msg id h Hi1 HV Hv Hin1)
    as (w2 & Hemit & Hout).
  exists w2, (record_of m1 V v msg).
  split; [exact Hemit|]. split; [reflexivity|]. split; [reflexivity|].
  rewrite Hout. f_equal.
  unfold file_modes in Hk. rewrite !elem_of_cons, elem_of_nil in Hk.
  destruct Hk as [Hk | [Hk | [Hk | [Hk | []]]]]; injection Hk as -> ->;
    cbn in Hno; injection Hno as <-;
    four_levels HV; cbn in Hv; injection Hv as <-; reflexivity.
Qed.

Lemma handler_rejects_foreign self w m h r :
  w_heap w !! self = Some m →
  h_filter h = FilterCategory self →
  r_extra r !! "category" ≠ Some (category m) →
  log.handler_accepts h r w = false.
Proof.
  intros Hm Hf Hr. unfold log.handler_accepts, log.filter_accepts.
  rewrite Hf, Hm, (bool_decide_false _ Hr). apply andb_false_r.
Qed.

Lemma installed_filters self w m g c no id h :
  installed_with self w m g c no →
  (id, h) ∈ w_handlers w →
  h_filter h = FilterCategory self.
Proof.
  intros Hi. rewrite (inst_handlers _ _ _ _ _ _ Hi). unfold registered_files.
  cbn [app]. rewrite !elem_of_cons, elem_of_nil.
  intros [H | [H | [H | [H | [H | []]]]]]; by injection H as -> ->.
Qed.


(** ** Paths of the log files *)










Lemma log_file_name_startswith cat mode d :
  startswith (log_file_name cat mode d) "/" = startswith cat "/".
Proof.
  unfold log_file_name. destruct cat as [|x cat]; [|reflexivity].
  cbn. destruct mode; reflexivity.
Qed.


(** With a category that begins with a separator, [os.path.join] drops the
    date directory. *)
Lemma log_file_path_absolute root cat mode d :
  startswith cat "/" = true →
  log_file_path root cat mode d = log_file_name cat mode d.
Proof.
  intros Hc. unfold log_file_path, os_path_join.
  by rewrite log_file_name_startswith, Hc.
Qed.

(** ** The file sinks of a manager *)






(** ** The predictor *)

Lemma only_logged_refl w : only_logged w w.
Proof. repeat split. exists []. by rewrite app_nil_r. Qed.

Lemma only_logged_trans w1 w2 w3 :
  only_logged w1 w2 → only_logged w2 w3 → only_logged w1 w3.
Proof.
  intros (? & ? & ? & ? & ? & ? & e1 & ?) (? & ? & ? & ? & ? & ? & e2 & ?).
  repeat split; try congruence.
  exists (e1 ++ e2)%list. rewrite app_assoc. congruence.
Qed.

(** Logging through an allocated manager returns and only logs. *)
Lemma log_only_logged V self msg w m :
  V ∈ LogConfig.VALID_LEVELS →
  w_heap w !! self = Some m →
  ∃ w', emit_via V self msg w = (inr (), w') ∧ only_logged w w'.
Proof.
  intros HV Hm. destruct (valid_level_no V HV) as [v Hv].
  eexists. split; [by apply (emit_via_ok V v self msg w m)|].
  repeat split. by eexists.
Qed.

Ltac valid_level :=
  unfold LogConfig.VALID_LEVELS; rewrite !elem_of_cons; tauto.

(** Runs the logging call at the head of the goal's computation. *)
Ltac log_call V Hm Hacc :=
  let w' := fresh "w" in
  let Hrun := fresh "Hrun" in
  let Hstep := fresh "Hstep" in
  match goal with
  | |- context [bind (?f ?lm ?msg) _ ?w] =>
      destruct (log_only_logged V lm msg w _ ltac:(valid_level) Hm)
        as (w' & Hrun & Hstep);
      change (emit_via V) with f in Hrun;
      rewrite (bind_inr _ _ _ _ _ Hrun);
      apply (only_logged_trans _ _ _ Hacc) in Hstep as Hacc';
      destruct Hstep as (_ & _ & Hstep & _);
      rewrite <- Hstep in Hm;
      clear Hrun Hstep Hacc; rename Hacc' into Hacc
  end.

(** The constructor with a log manager: it returns, whatever the mode, with
    the wrapper of [built_model]; apart from log records the state is as it
    was. *)
Lemma predictor_init_ok model_path lm mode elapsed w m :
  w_heap w !! lm = Some m →
  ∃ w',
    SAMPredictor.__init__ model_path (Some lm) mode elapsed w =
      (inr {| sp_log_manager := Some lm; sp_mode := mode;
              sp_model := built_model model_path mode |}, w') ∧
    only_logged w w'.
Proof.
  intros Hm. pose proof (only_logged_refl w) as Hacc.
  unfold SAMPredictor.__init__, built_model.
  unfold the_log_manager. unfold bind at 1. unfold ret at 1.
  log_call "DEBUG" Hm Hacc.
  destruct (bool_decide (mode ∈ ["image"; "video2img"])).
  { unfold bind at 1. log_call "DEBUG" Hm Hacc.
    unfold ret at 1. log_call "DEBUG" Hm Hacc. eexists. by split. }
  destruct (bool_decide (mode = "video")).
  { unfold bind at 1. log_call "DEBUG" Hm Hacc.
    unfold ret at 1. log_call "DEBUG" Hm Hacc. eexists. by split. }
  destruct (bool_decide (mode = "DynVideo")).
  { unfold bind at 1. log_call "DEBUG" Hm Hacc. log_call "INFO" Hm Hacc.
    unfold ret at 1. log_call "DEBUG" Hm Hacc. eexists. by split. }
  unfold bind at 1. unfold ret at 1. log_call "DEBUG" Hm Hacc.
  eexists. by split.
Qed.

Lemma call_ok sp lm m model input_data bboxes points labels w :
  sp_log_manager sp = Some lm →
  sp_model sp = Some model →
  w_heap w !! lm = Some m →
  ∃ w1,
    only_logged w w1 ∧
    SAMPredictor.__call__ sp input_data bboxes points labels w =
      (inr (w_predict w (call_of model input_data points labels)),
       set_calls (λ l, (l ++ [call_of model input_data points labels])%list)
         w1).
Proof.
  intros Hlm Hmodel Hm. pose proof (only_logged_refl w) as Hacc.
  unfold SAMPredictor.__call__. rewrite Hlm, Hmodel.
  unfold the_log_manager. unfold bind at 1. unfold ret at 1.
  do 5 log_call "DEBUG" Hm Hacc.
  eexists. split; [exact Hacc|].
  unfold SAMPredictor.invoke, bind, modify, gets. cbn.
  by destruct Hacc as (_ & _ & _ & -> & _).
Qed.

Lemma call_no_model sp lm m input_data bboxes points labels w :
  sp_log_manager sp = Some lm →
  sp_model sp = None →
  w_heap w !! lm = Some m →
  ∃ w1,
    only_logged w w1 ∧
    SAMPredictor.__call__ sp input_data bboxes points labels w =
      (inl (AttributeError "'SAMPredictor' object has no attribute 'model'"),
       w1).
Proof.
  intros Hlm Hmodel Hm. pose proof (only_logged_refl w) as Hacc.
  unfold SAMPredictor.__call__. rewrite Hlm, Hmodel.
  unfold the_log_manager. unfold bind at 1. unfold ret at 1.
  do 5 log_call "DEBUG" Hm Hacc.
  eexists. by split.
Qed.

Lemma handle_results_ok args config lm m results w :
  w_heap w !! lm = Some m →
  ∃ w',
    handle_results args config lm results w = (inr (), w') ∧
    w_calls w' = w_calls w ∧
    w_saved w' = (w_saved w ++ saved_of results (output_data_path config))%list.
Proof.
  intros Hm. unfold handle_results.
  destruct results as [|r [|r' rs]]; cbn [saved_of].
  - destruct (log_only_logged "ERROR" lm "❌ 未处理任何样本" w m
                ltac:(valid_level) Hm) as (w' & Hrun & Hl).
    exists w'. split; [exact Hrun|].
    destruct Hl as (_ & _ & _ & _ & -> & -> & _). by rewrite app_nil_r.
  - eexists. split; [reflexivity|]. by split.
  - destruct (log_only_logged "WARNING" lm
                ("⚠️  多个结果，请自行处理， 选择模式为 " +:+ args_mode args) w m
                ltac:(valid_level) Hm) as (w' & Hrun & Hl).
    exists w'. split; [exact Hrun|].
    destruct Hl as (_ & _ & _ & _ & -> & -> & _). by rewrite app_nil_r.
Qed.

(** Lines 192 to 202 with a predictor that has a model, up to the last
    statement: the model has been called once, nothing else has changed but
    the logs. *)
Lemma main_inference_split args config lm sp m model w :
  sp_log_manager sp = Some lm →
  sp_model sp = Some model →
  w_heap w !! lm = Some m →
  let c := call_of model (VStr (input_data_path config)) (points config)
             (labels config) in
  ∃ w2,
    main_inference args config lm sp w =
      handle_results args config lm (w_predict w c) w2 ∧
    w_handlers w2 = w_handlers w ∧
    w_handlers_count w2 = w_handlers_count w ∧
    w_heap w2 = w_heap w ∧
    w_calls w2 = (w_calls w ++ [c])%list ∧
    w_saved w2 = w_saved w.
Proof.
  intros Hlm Hmodel Hm c. pose proof (only_logged_refl w) as Hacc.
  unfold main_inference. log_call "INFO" Hm Hacc.
  destruct (call_ok sp lm m model (VStr (input_data_path config))
              (bboxes config) (points config) (labels config) _
              Hlm Hmodel Hm) as (w1 & Hacc1 & Hcall).
  rewrite (bind_inr _ _ _ _ _ Hcall). clear Hcall.
  pose proof (only_logged_trans _ _ _ Hacc Hacc1) as Hacc2.
  assert (Hpred : w_predict w0 = w_predict w)
    by (by destruct Hacc as (_ & _ & _ & -> & _)).
  rewrite Hpred. fold c.
  assert (Hm1 : w_heap (set_calls (λ l, (l ++ [c])%list) w1) !! lm = Some m).
  { cbn. destruct Hacc1 as (_ & _ & -> & _). exact Hm. }
  destruct (log_only_logged "INFO" lm
              ("✅ 推理完成，共处理 " +:+ pretty (length (w_predict w c))
               +:+ " 个样本") _ m ltac:(valid_level) Hm1)
    as (w2 & Hrun2 & Hl2).
  change (emit_via "INFO") with LogManager.info in Hrun2.
  rewrite (bind_inr _ _ _ _ _ Hrun2).
  exists w2. split; [reflexivity|].
  destruct Hl2 as (-> & -> & -> & _ & -> & -> & _). cbn.
  by destruct Hacc2 as (-> & -> & -> & _ & -> & -> & _).
Qed.

(** One message through an installed manager: the manager stays installed
    and each of its handlers receives the record if its level allows. *)
Lemma log_step self w m g c no V v msg :
  installed_with self w m g c no →
  V ∈ LogConfig.VALID_LEVELS →
  level_no V = Some v →
  ∃ w2,
    emit_via V self msg w = (inr (), w2) ∧
    installed_with self w2 m g c no ∧
    ∀ id h, (id, h) ∈ w_handlers w →
      handler_out id w2 =
        (handler_out id w ++
         if decide (h_levelno h ≤ v)%Z then [record_of m V v msg] else [])%list.
Proof.
  intros Hi HV Hv.
  pose proof (emit_via_ok V v self msg w m HV Hv (inst_heap _ _ _ _ _ _ Hi))
    as Hrun.
  eexists. split; [exact Hrun|].
  split; [by apply (installed_with_frame self w)|].
  intros id h Hin.
  destruct (handler_out_emit self w m g c no V v msg id h Hi HV Hv Hin)
    as (w2 & Hrun2 & Hout).
  rewrite Hrun in Hrun2. injection Hrun2 as <-. exact Hout.
Qed.

Lemma info_handler_installed self w m g c no :
  installed_with self w m g c no →
  ∃ h, (id_info g, h) ∈ w_handlers w ∧ h_levelno h = 20%Z.
Proof.
  intros Hi. rewrite (inst_handlers _ _ _ _ _ _ Hi). eexists. split.
  - apply elem_of_app. left. unfold registered_files.
    rewrite !elem_of_cons. auto.
  - reflexivity.
Qed.

(** C3. In mode DynVideo the constructor builds the dynamic interactive
    predictor on the model file sam2_t.pt, with at most 10 objects, whatever
    [model_path] is; [model_path] only appears in a record logged at INFO,
    which the INFO file of an installed manager receives. *)
Theorem dynvideo_model_is_fixed model_path lm elapsed w :
  installed lm w →
  ∃ sp w' m id r,
    SAMPredictor.__init__ model_path (Some lm) "DynVideo" elapsed w
      = (inr sp, w') ∧
    sp_model sp =
      Some (SAM2DynamicInteractivePredictor
              {| ov_conf := QArith_base.Qmake 1 100; ov_task := "segment";
                 ov_mode := "predict"; ov_imgsz := 1024;
                 ov_model := "sam2_t.pt"; ov_save := Some false |} 10) ∧
    w_heap w !! lm = Some m ∧
    file_handlers m !! "info" = Some id ∧
    r_level r = "INFO" ∧
    r_message r = "model_path: " +:+ model_path ∧
    handler_out id w' = (handler_out id w ++ [r])%list.
Proof.
  intros (m & g & c & no & Hi).
  destruct (info_handler_installed _ _ _ _ _ _ Hi) as (h & Hin & Hh).
  unfold SAMPredictor.__init__, the_log_manager.
  unfold bind at 1. unfold ret at 1.
  destruct (log_step lm w m g c no "DEBUG" 10 "🚀 开始加载SAM模型..." Hi
              ltac:(valid_level) eq_refl) as (w1 & Hr1 & Hi1 & Ho1).
  change (emit_via "DEBUG") with LogManager.debug in Hr1.
  rewrite (bind_inr _ _ _ _ _ Hr1).
  change (bool_decide ("DynVideo" ∈ ["image"; "video2img"])) with false.
  change (bool_decide ("DynVideo" = "video")) with false.
  change (bool_decide ("DynVideo" = "DynVideo")) with true.
  cbn match. unfold bind at 1.
  destruct (log_step lm w1 m g c no "DEBUG" 10
              ("🚀 模式为" +:+ "DynVideo" +:+ "，处理动态交互模式...") Hi1
              ltac:(valid_level) eq_refl) as (w2 & Hr2 & Hi2 & Ho2).
  change (emit_via "DEBUG") with LogManager.debug in Hr2.
  rewrite (bind_inr _ _ _ _ _ Hr2).
  destruct (log_step lm w2 m g c no "INFO" 20
              ("model_path: " +:+ model_path) Hi2
              ltac:(valid_level) eq_refl) as (w3 & Hr3 & Hi3 & Ho3).
  change (emit_via "INFO") with LogManager.info in Hr3.
  rewrite (bind_inr _ _ _ _ _ Hr3). unfold ret at 1.
  destruct (log_step lm w3 m g c no "DEBUG" 10
              ("✅ 模型加载完成 | 耗时: " +:+ elapsed +:+ "s") Hi3
              ltac:(valid_level) eq_refl) as (w4 & Hr4 & Hi4 & Ho4).
  change (emit_via "DEBUG") with LogManager.debug in Hr4.
  rewrite (bind_inr _ _ _ _ _ Hr4).
  assert (Hin1 : (id_info g, h) ∈ w_handlers w1)
    by (by rewrite (inst_handlers _ _ _ _ _ _ Hi1),
             <- (inst_handlers _ _ _ _ _ _ Hi)).
  assert (Hin2 : (id_info g, h) ∈ w_handlers w2)
    by (by rewrite (inst_handlers _ _ _ _ _ _ Hi2),
             <- (inst_handlers _ _ _ _ _ _ Hi)).
  assert (Hin3 : (id_info g, h) ∈ w_handlers w3)
    by (by rewrite (inst_handlers _ _ _ _ _ _ Hi3),
             <- (inst_handlers _ _ _ _ _ _ Hi)).
  eexists _, w4, m, (id_info g), (record_of m "INFO" 20 _).
  split; [reflexivity|]. split; [reflexivity|].
  split; [apply Hi|]. split; [apply Hi|].
  split; [reflexivity|]. split; [reflexivity|].
  rewrite (Ho4 _ _ Hin3), (Ho3 _ _ Hin2), (Ho2 _ _ Hin1), (Ho1 _ _ Hin), Hh.
  cbn. by rewrite !app_nil_r.
Qed.


(** C4 (amended). For each of the modes image, video2img, video and DynVideo
    the constructor builds a wrapper: [SAM] for image and for video2img,
    [SAM2VideoPredictor] for video, [SAM2DynamicInteractivePredictor] for
    DynVideo. *)
Theorem mode_selects_constructor model_path lm elapsed mode w m :
  w_heap w !! lm = Some m →
  mode ∈ init_modes →
  ∃ sp w' model,
    SAMPredictor.__init__ model_path (Some lm) mode elapsed w = (inr sp, w') ∧
    sp_model sp = Some model ∧
    constructor_name model =
      (if bool_decide (mode = "image") || bool_decide (mode = "video2img")
       then "SAM"
       else if bool_decide (mode = "video") then "SAM2VideoPredictor"
       else "SAM2DynamicInteractivePredictor").
Proof.
  intros Hm Hmode.
  destruct (predictor_init_ok model_path lm mode elapsed w m Hm)
    as (w' & Hrun & _).
  unfold init_modes in Hmode. rewrite !elem_of_cons, elem_of_nil in Hmode.
  destruct Hmode as [-> | [-> | [-> | [-> | []]]]];
    eexists _, w', _; (split; [exact Hrun|]); split; reflexivity.
Qed.

Lemma handle_results_logged args config lm m g c no results w :
  installed_with lm w m g c no →
  ∃ w',
    handle_results args config lm results w = (inr (), w') ∧
    (1 < length results →
       handler_out (id_warning g) w' =
         (handler_out (id_warning g) w ++
          [record_of m "WARNING" 30
             ("⚠️  多个结果，请自行处理， 选择模式为 " +:+ args_mode args)])%list) ∧
    (results = [] →
       handler_out (id_error g) w' =
         (handler_out (id_error g) w ++
          [record_of m "ERROR" 40 "❌ 未处理任何样本"])%list).
Proof.
  intros Hi. unfold handle_results.
  pose proof (inst_handlers _ _ _ _ _ _ Hi) as Hh.
  destruct results as [|r [|r' rs]].
  - destruct (log_step lm w m g c no "ERROR" 40 "❌ 未处理任何样本" Hi
                ltac:(valid_level) eq_refl) as (w' & Hrun & _ & Hout).
    exists w'. split; [exact Hrun|]. split; [cbn; lia|]. intros _.
    rewrite (Hout (id_error g) (file_handler lm
      (log_file_path (log_path m) (category m) "error" (date_error g))
      "ERROR" 40)); [reflexivity|].
    rewrite Hh. apply elem_of_app. left. unfold registered_files.
    rewrite !elem_of_cons. auto.
  - eexists. split; [reflexivity|]. split; [cbn; lia | done].
  - destruct (log_step lm w m g c no "WARNING" 30
                ("⚠️  多个结果，请自行处理， 选择模式为 " +:+ args_mode args) Hi
                ltac:(valid_level) eq_refl) as (w' & Hrun & _ & Hout).
    exists w'. split; [exact Hrun|]. split; [|done]. intros _.
    rewrite (Hout (id_warning g) (file_handler lm
      (log_file_path (log_path m) (category m) "warning" (date_warning g))
      "WARNING" 30)); [reflexivity|].
    rewrite Hh. apply elem_of_app. left. unfold registered_files.
    rewrite !elem_of_cons. auto.
Qed.

(** C5 (amended). With an installed log manager and a predictor that has a
    model, lines 192 to 202 call the model once and return.  When the call
    returned exactly one result, it is saved to the configured output path;
    otherwise nothing is saved: with more than one result the last record of
    the WARNING file is the warning that names the mode, with none the last
    record of the ERROR file is the error. *)
Theorem inference_saves_single_result args config lm sp model w :
  installed lm w →
  sp_log_manager sp = Some lm →
  sp_model sp = Some model →
  ∃ w' c m,
    main_inference args config lm sp w = (inr (), w') ∧
    w_calls w' = (w_calls w ++ [c])%list ∧
    w_heap w !! lm = Some m ∧
    (∀ r, w_predict w c = [r] →
       w_saved w' = (w_saved w ++ [(r, VStr (output_data_path config))])%list) ∧
    (length (w_predict w c) ≠ 1 → w_saved w' = w_saved w) ∧
    (1 < length (w_predict w c) →
       ∃ id rec,
         file_handlers m !! "warning" = Some id ∧
         last (handler_out id w') = Some rec ∧
         r_level rec = "WARNING" ∧
         r_message rec =
           "⚠️  多个结果，请自行处理， 选择模式为 " +:+ args_mode args) ∧
    (w_predict w c = [] →
       ∃ id rec,
         file_handlers m !! "error" = Some id ∧
         last (handler_out id w') = Some rec ∧
         r_level rec = "ERROR" ∧
         r_message rec = "❌ 未处理任何样本").
Proof.
  intros (m & g & c0 & no & Hi) Hlm Hmodel.
  pose proof (inst_heap _ _ _ _ _ _ Hi) as Hm.
  destruct (main_inference_split args config lm sp m model w Hlm Hmodel Hm)
    as (w2 & Hsplit & Hh2 & Hc2 & Hp2 & Hcalls2 & Hsaved2).
  assert (Hi2 : installed_with lm w2 m g c0 no)
    by (by apply (installed_with_frame lm w)).
  assert (Hm2 : w_heap w2 !! lm = Some m) by apply Hi2.
  set (c := call_of model (VStr (input_data_path config)) (points config)
              (labels config)) in *.
  destruct (handle_results_ok args config lm m (w_predict w c) w2 Hm2)
    as (w' & Hrun & Hc & Hs).
  destruct (handle_results_logged args config lm m g c0 no (w_predict w c)
              w2 Hi2) as (w'' & Hrun' & Hwarn & Herr).
  rewrite Hrun in Hrun'. injection Hrun' as <-.
  exists w', c, m. rewrite Hsplit.
  split; [exact Hrun|]. split; [by rewrite Hc, Hcalls2|]. split; [exact Hm|].
  rewrite Hs, Hsaved2. split; [|split; [|split]].
  - intros r ->. reflexivity.
  - intros Hlen. destruct (w_predict w c) as [|r [|r' rs]]; cbn in *;
      [|done|]; by rewrite app_nil_r.
  - intros Hlen. eexists (id_warning g), _.
    split; [apply Hi|]. rewrite (Hwarn Hlen), last_snoc. done.
  - intros Hnil. eexists (id_error g), _.
    split; [apply Hi|]. rewrite (Herr Hnil), last_snoc. done.
Qed.

(** ** The manager of the main block *)

Lemma only_logged_installed self w w' :
  installed self w → only_logged w w' → installed self w'.
Proof.
  intros (m & g & c & no & Hi) (Hh & Hc & Hp & _).
  exists m, g, c, no. by apply (installed_with_frame self w).
Qed.

Lemma choice_inr given dflt choices v w w' :
  choice given dflt choices w = (inr v, w') →
  w' = w ∧ (v = dflt ∨ v ∈ choices).
Proof.
  unfold choice. destruct given as [x|].
  - case_bool_decide; [|discriminate]. intros [= <- <-]. auto.
  - intros [= <- <-]. auto.
Qed.

Lemma assert_inr b msg w w' :
  assert_ b msg w = (inr (), w') → b = true ∧ w' = w.
Proof. destruct b; [by intros [= <-] | discriminate]. Qed.

(** When lines 159 to 174 of the main block complete, the manager they made
    is installed and the predictor refers to it; its model is the one the
    dispatch builds for the mode given on the command line. *)
Lemma main_setup_installed argv config elapsed w args lm sp w' :
  main_setup argv config elapsed w = (inr (args, lm, sp), w') →
  installed lm w' ∧
  sp_log_manager sp = Some lm ∧
  sp_model sp = built_model (model_path config) (args_mode args) ∧
  args_mode args ∈ mode_choices.
Proof.
  unfold main_setup, parse_args. intros H.
  unfold bind at 1 in H. unfold bind at 1 in H.
  destruct (choice (argv_log_level argv) _ _ w) as [[e|ll] w1] eqn:Hll;
    [discriminate|].
  apply choice_inr in Hll as [-> Hll].
  unfold bind at 1 in H.
  destruct (choice (argv_mode argv) _ _ w) as [[e|mode] w1] eqn:Hmode;
    [discriminate|].
  apply choice_inr in Hmode as [-> Hmode].
  unfold ret at 1 in H. cbn [args_config args_log_level args_mode] in H.
  unfold bind at 1 in H. unfold os_path_exists at 1, gets at 1 in H.
  unfold bind at 1 in H.
  destruct (assert_ _ _ w) as [[e|[]] w1] eqn:Ha1; [discriminate|].
  apply assert_inr in Ha1 as [_ ->].
  unfold bind at 1 in H. unfold os_path_exists at 1, gets at 1 in H.
  unfold bind at 1 in H.
  destruct (assert_ _ _ w) as [[e|[]] w1] eqn:Ha2; [discriminate|].
  apply assert_inr in Ha2 as [_ ->].
  unfold bind at 1 in H. unfold os_makedirs at 1, modify at 1 in H.
  unfold bind at 1 in H. unfold os_path_exists at 1, gets at 1 in H.
  unfold bind at 1 in H.
  destruct (assert_ _ _ _) as [[e|[]] w1] eqn:Ha3; [discriminate|].
  apply assert_inr in Ha3 as [_ ->].
  destruct (init_installed "./logs/" "INFO" "default"
              (set_paths (λ s, {[output_data_path config]} ∪ s) w)
              ltac:(valid_level))
    as (self & w1 & g & c & no & Hinit & Hi1 & _).
  rewrite (bind_inr _ _ _ _ _ Hinit) in H.
  assert (Hvalid : upper ll ∈ LogConfig.VALID_LEVELS).
  { destruct Hll as [-> | Hll]; [valid_level|].
    unfold log_level_choices in Hll. rewrite !elem_of_cons, elem_of_nil in Hll.
    destruct Hll as [-> | [-> | [-> | [-> | []]]]]; valid_level. }
  destruct (set_log_level_ok self ll w1 _ g c no Hi1 Hvalid)
    as (w2 & c2 & no2 & imsg & Hset & Hi2 & _).
  rewrite (bind_inr _ _ _ _ _ Hset) in H.
  destruct (predictor_init_ok (model_path config) self mode elapsed w2 _
              (inst_heap _ _ _ _ _ _ Hi2)) as (w3 & Hsp & Hl3).
  rewrite (bind_inr _ _ _ _ _ Hsp) in H.
  injection H as <- <- <- <-.
  split; [|split; [reflexivity|split; [reflexivity|]]].
  - eapply only_logged_installed; [|exact Hl3]. by eexists _, g, c2, no2.
  - cbn. destruct Hmode as [-> | Hmode]; [|exact Hmode].
    unfold mode_choices. rewrite !elem_of_cons. auto.
Qed.

(** ** Concrete runs *)

Ltac by_evaluation :=
  first [ by vm_compute
        | by (vm_compute; repeat constructor)
        | cbn; lia ].

Ltac installed_by_evaluation :=
  eexists _, registration_example, 4, 20%Z; constructor; by_evaluation.

Example world_installed_is_installed : installed 0 world_installed.
Proof. installed_by_evaluation. Qed.

Example below_examples :
  below "DEBUG" "INFO" = true ∧ below "INFO" "INFO" = false ∧
  below "ERROR" "WARNING" = false ∧ below "WARNING" "ERROR" = true.
Proof. by vm_compute. Qed.

Example upper_examples :
  upper "warning" = "WARNING" ∧ upper "Info" = "INFO" ∧
  upper "verbose" = "VERBOSE" ∧ lower "ERROR" = "error".
Proof. by vm_compute. Qed.

Example path_examples :
  os_path_join "./logs/" "2026-01-05" = "./logs/2026-01-05" ∧
  os_path_join "logs" "2026-01-05" = "logs/2026-01-05" ∧
  os_path_join "" "2026-01-05" = "2026-01-05" ∧
  os_path_join "./logs/2026-01-05" "/abs_error_2026-01-05.log"
    = "/abs_error_2026-01-05.log" ∧
  strftime_Ymd date_example = "2026-01-05".
Proof. by vm_compute. Qed.

(** The constructor empties the logger, so a manager made later takes the
    place of an earlier one: the earlier one is not installed any more, its
    messages reach no sink, and its [set_log_level] sets [run_mode] and then
    fails in [log.remove] on its stale console handler. *)
Example later_manager_supersedes :
  let r := LogManager.__init__ "./logs/" "INFO" "other" world_installed in
  r.1 = inr 1 ∧
  (λ p : nat * Handler, (p.1, h_filter p.2)) <$> w_handlers r.2
    = [(5, FilterCategory 1); (6, FilterCategory 1); (7, FilterCategory 1);
       (8, FilterCategory 1); (9, FilterCategory 1)] ∧
  w_out (LogManager.error 0 "lost" r.2).2 = w_out r.2 ∧
  (LogManager.set_log_level 0 "ERROR" r.2).1
    = inl (ValueError "There is no existing handler with id 4") ∧
  run_mode <$> w_heap (LogManager.set_log_level 0 "ERROR" r.2).2 !! 0
    = Some "ERROR".
Proof. by vm_compute. Qed.

(** ** The prompts that reach the model *)

Lemma call_of_kwargs model input_data points labels :
  mc_kwargs (call_of model input_data points labels) !! "bboxes" = None ∧
  mc_kwargs (call_of model input_data points labels) !! "points"
    = Some points ∧
  mc_kwargs (call_of model input_data points labels) !! "labels"
    = Some labels.
Proof. by vm_compute. Qed.

(** C1 (the code departs from it). The main block on a configuration with
    bounding boxes [[10, 20, 30, 40]]: the run succeeds, and the one call of
    the wrapped model carries the configured points and labels but no
    [bboxes] argument. *)
Theorem call_omits_bboxes :
  let r := run_main (argv_with_mode None) config_example world_example in
  r.1 = inr () ∧
  bboxes config_example = VList [VList [VInt 10; VInt 20; VInt 30; VInt 40]] ∧
  (λ c, (mc_source c, mc_kwargs c !! "bboxes", mc_kwargs c !! "points",
         mc_kwargs c !! "labels")) <$> w_calls r.2
    = [(VStr "in.jpg", None, Some (points config_example),
        Some (labels config_example))].
Proof. by vm_compute. Qed.

(** ** Modes *)

(** C2 (the code departs from it). The command line accepts [img] and
    refuses [image]; for [img] the constructor takes no branch and assigns no
    model, and the inference call of the main block then fails on the missing
    attribute. *)
Theorem img_mode_has_no_model :
  mode_choices = ["img"; "video2img"; "video"; "DynVideo"] ∧
  (parse_args (argv_with_mode (Some "img")) world_example).1
    = inr {| args_config := "./config/sam_2.yaml"; args_log_level := "DEBUG";
             args_mode := "img" |} ∧
  (parse_args (argv_with_mode (Some "image")) world_example).1
    = inl (SystemExit 2) ∧
  (SAMPredictor.__init__ "sam2_b.pt" (Some 0) "img" "0.10" world_installed).1
    = inr {| sp_log_manager := Some 0; sp_mode := "img"; sp_model := None |} ∧
  (run_main (argv_with_mode (Some "img")) config_example world_example).1
    = inl (AttributeError "'SAMPredictor' object has no attribute 'model'").
Proof. by vm_compute. Qed.

(** C4 as stated fails: image and video2img are different modes and both
    invoke the constructor [SAM]. *)
Lemma image_and_video2img_share_constructor :
  "image" ≠ "video2img" ∧
  constructor_name <$>
    model_built (SAMPredictor.__init__ "sam2_b.pt" (Some 0) "image" "0.10"
                   world_installed) = Some "SAM" ∧
  constructor_name <$>
    model_built (SAMPredictor.__init__ "sam2_b.pt" (Some 0) "video2img" "0.10"
                   world_installed) = Some "SAM".
Proof. by vm_compute. Qed.

(** C5 as stated fails: when the library returns two results the main block
    ends normally and nothing is saved. *)
Lemma two_results_are_not_saved :
  let r := run_main (argv_with_mode None) config_example world_two_results in
  r.1 = inr () ∧
  w_predict world_two_results <$> w_calls r.2 = [[7; 8]] ∧
  w_saved r.2 = [].
Proof. by vm_compute. Qed.


(** ** The theorems at concrete inputs *)

Lemma dynvideo_model_is_fixed_witness :
  installed 0 world_installed ∧
  ∃ sp w' m id r,
    SAMPredictor.__init__ "sam2_b.pt" (Some 0) "DynVideo" "0.10"
      world_installed = (inr sp, w') ∧
    sp_model sp =
      Some (SAM2DynamicInteractivePredictor
              {| ov_conf := QArith_base.Qmake 1 100; ov_task := "segment";
                 ov_mode := "predict"; ov_imgsz := 1024;
                 ov_model := "sam2_t.pt"; ov_save := Some false |} 10) ∧
    w_heap world_installed !! 0 = Some m ∧
    file_handlers m !! "info" = Some id ∧
    r_level r = "INFO" ∧
    r_message r = "model_path: " +:+ "sam2_b.pt" ∧
    handler_out id w' = (handler_out id world_installed ++ [r])%list.
Proof.
  assert (Hi : installed 0 world_installed) by installed_by_evaluation.
  split; [exact Hi|].
  exact (dynvideo_model_is_fixed "sam2_b.pt" 0 "0.10" world_installed Hi).
Defined.

Lemma mode_selects_constructor_witness :
  w_heap world_installed !! 0 = Some manager_example ∧
  "video" ∈ init_modes ∧
  ∃ sp w' model,
    SAMPredictor.__init__ "sam2_b.pt" (Some 0) "video" "0.10" world_installed
      = (inr sp, w') ∧
    sp_model sp = Some model ∧
    constructor_name model = "SAM2VideoPredictor".
Proof.
  assert (Hm : w_heap world_installed !! 0 = Some manager_example)
    by (vm_compute; reflexivity).
  assert (Hin : "video" ∈ init_modes) by (vm_compute; repeat constructor).
  split; [exact Hm|]. split; [exact Hin|].
  exact (mode_selects_constructor "sam2_b.pt" 0 "0.10" "video"
           world_installed manager_example Hm Hin).
Defined.

Lemma inference_saves_single_result_witness :
  installed 0 world_installed ∧
  sp_log_manager predictor_example = Some 0 ∧
  sp_model predictor_example = Some (SAM "sam2_b.pt") ∧
  ∃ w' c m,
    main_inference args_example config_example 0 predictor_example
      world_installed = (inr (), w') ∧
    w_calls w' = (w_calls world_installed ++ [c])%list ∧
    w_heap world_installed !! 0 = Some m ∧
    (∀ r, w_predict world_installed c = [r] →
       w_saved w' = (w_saved world_installed ++
                     [(r, VStr (output_data_path config_example))])%list) ∧
    (length (w_predict world_installed c) ≠ 1 →
       w_saved w' = w_saved world_installed) ∧
    (1 < length (w_predict world_installed c) →
       ∃ id rec,
         file_handlers m !! "warning" = Some id ∧
         last (handler_out id w') = Some rec ∧
         r_level rec = "WARNING" ∧
         r_message rec =
           "⚠️  多个结果，请自行处理， 选择模式为 " +:+ args_mode args_example) ∧
    (w_predict world_installed c = [] →
       ∃ id rec,
         file_handlers m !! "error" = Some id ∧
         last (handler_out id w') = Some rec ∧
         r_level rec = "ERROR" ∧
         r_message rec = "❌ 未处理任何样本").
Proof.
  assert (Hi : installed 0 world_installed) by installed_by_evaluation.
  split; [exact Hi|]. split; [reflexivity|]. split; [reflexivity|].
  exact (inference_saves_single_result args_example config_example 0
           predictor_example (SAM "sam2_b.pt") world_installed
           Hi eq_refl eq_refl).
Defined.


Lemma set_log_level_keeps_file_handlers_witness :
  installed 0 world_installed ∧
  LogManager.set_log_level 0 "ERROR" world_installed =
    ((LogManager.set_log_level 0 "ERROR" world_installed).1,
     (LogManager.set_log_level 0 "ERROR" world_installed).2) ∧
  ∃ m m1,
    w_heap world_installed !! 0 = Some m ∧
    w_heap (LogManager.set_log_level 0 "ERROR" world_installed).2 !! 0
      = Some m1 ∧
    file_handlers m1 = file_handlers m ∧
    filter (λ p : nat * Handler, h_sink p.2 ≠ PrintSink)
      (w_handlers (LogManager.set_log_level 0 "ERROR" world_installed).2) =
    filter (λ p : nat * Handler, h_sink p.2 ≠ PrintSink)
      (w_handlers world_installed) ∧
    ∀ key lvl, (key, lvl) ∈ file_modes →
      ∃ id h,
        file_handlers m !! key = Some id ∧
        (id, h) ∈ w_handlers world_installed ∧
        (id, h) ∈ w_handlers
                    (LogManager.set_log_level 0 "ERROR" world_installed).2 ∧
        h_level h = lvl ∧ h_sink h ≠ PrintSink ∧
        ∀ V msg, V ∈ LogConfig.VALID_LEVELS →
          ∃ w2 r,
            emit_via V 0 msg
              (LogManager.set_log_level 0 "ERROR" world_installed).2
              = (inr (), w2) ∧
            r_level r = V ∧ r_message r = msg ∧
            handler_out id w2 =
              (handler_out id
                 (LogManager.set_log_level 0 "ERROR" world_installed).2 ++
               if below V lvl then [] else [r])%list.
Proof.
  assert (Hi : installed 0 world_installed) by installed_by_evaluation.
  assert (Hrun : LogManager.set_log_level 0 "ERROR" world_installed =
    ((LogManager.set_log_level 0 "ERROR" world_installed).1,
     (LogManager.set_log_level 0 "ERROR" world_installed).2))
    by (vm_compute; reflexivity).
  split; [exact Hi|]. split; [exact Hrun|].
  exact (set_log_level_keeps_file_handlers 0 world_installed "ERROR" _ _
           Hi Hrun).
Defined.




(** * Further properties of the code *)

(** ** set_log_level, call after call *)




(** ** set_log_level and the console handler *)

Lemma log_remove_absent id w :
  id ∉ (w_handlers w).*1 →
  log.remove id w =
    (inl (ValueError ("There is no existing handler with id " +:+ pretty id)),
     w).
Proof. intros H. unfold log.remove. by rewrite bool_decide_false. Qed.

(** X2. [set_log_level] with a valid level on a manager whose console
    handler is registered returns.  When the level is the current one, no
    handler, no id and no attribute changes.  Otherwise the console handler
    is taken out and one console handler at the new level is added under the
    next id of the logger; every other handler of the logger stays where it
    is, and [console_handler_id] is the new id. *)
Theorem set_log_level_replaces_console self L w m c no :
  w_heap w !! self = Some m →
  console_handler_id m = Some c →
  c ∈ (w_handlers w).*1 →
  level_no (upper L) = Some no →
  upper L ∈ LogConfig.VALID_LEVELS →
  ∃ w',
    LogManager.set_log_level self L w = (inr (), w') ∧
    (run_mode m = upper L →
       w_handlers w' = w_handlers w ∧
       w_handlers_count w' = w_handlers_count w ∧
       w_heap w' = w_heap w) ∧
    (run_mode m ≠ upper L →
       w_handlers w' =
         (filter (λ p : nat * Handler, p.1 ≠ c) (w_handlers w) ++
          [(w_handlers_count w, console_handler self (upper L) no)])%list ∧
       w_handlers_count w' = S (w_handlers_count w) ∧
       w_heap w' !! self =
         Some (with_console_handler_id (Some (w_handlers_count w))
                 (with_run_mode (upper L) m))).
Proof.
  intros Hm Hc Hin Hno HL. unfold LogManager.set_log_level.
  rewrite bool_decide_true by done. cbn [negb].
  rewrite (bind_inr _ _ _ _ _ (deref_Some _ _ _ Hm)).
  case_bool_decide as Heq.
  - eexists. split; [by apply bind_log_ok|]. split; [done|]. done.
  - rewrite (bind_inr _ _ _ _ _ (update_ok _ _ _ _ Hm)).
    erewrite bind_inr;
      [| apply config_console_handler_replace with (c := c) (no := no);
         [heap_lookup | exact Hc | exact Hin | exact Hno] ].
    erewrite bind_inr; [| apply deref_Some; heap_lookup ].
    eexists. split; [by apply bind_log_ok|]. split; [done|].
    intros _. cbn. by rewrite lookup_insert_eq.
Qed.

(** X3. On a manager whose console handler is no longer in the logger (the
    constructor of a later manager has emptied it), [set_log_level] with a
    valid level other than the current one assigns [run_mode] and then
    raises the [ValueError] of [log.remove]: the level reported afterwards
    is the new one although no console handler was installed. *)
Theorem set_log_level_stale_console self L w m c :
  w_heap w !! self = Some m →
  console_handler_id m = Some c →
  c ∉ (w_handlers w).*1 →
  upper L ∈ LogConfig.VALID_LEVELS →
  run_mode m ≠ upper L →
  ∃ w',
    LogManager.set_log_level self L w =
      (inl (ValueError ("There is no existing handler with id " +:+ pretty c)),
       w') ∧
    w_handlers w' = w_handlers w ∧
    LogManager.get_current_level self w' = (inr (upper L), w').
Proof.
  intros Hm Hc Hout HL Hne. unfold LogManager.set_log_level.
  rewrite bool_decide_true by done. cbn [negb].
  rewrite (bind_inr _ _ _ _ _ (deref_Some _ _ _ Hm)).
  rewrite bool_decide_false by done.
  rewrite (bind_inr _ _ _ _ _ (update_ok _ _ _ _ Hm)).
  erewrite bind_inl.
  2:{ unfold LogManager._config_console_handler.
      erewrite bind_inr; [| apply deref_Some; heap_lookup ].
      cbn [console_handler_id with_run_mode]. rewrite Hc.
      erewrite bind_inl; [reflexivity|]. by apply log_remove_absent. }
  eexists. split; [reflexivity|]. split; [reflexivity|].
  unfold LogManager.get_current_level.
  erewrite bind_inr; [| apply deref_Some; heap_lookup ]. reflexivity.
Qed.

(** ** The constructor and what was there before *)



(** X5. After the constructor has made a new manager, a manager that
    existed before is unchanged but its handlers are gone: what it logs
    reaches no sink when its category differs from the new manager's, and
    goes to the new manager's sinks (its DEBUG file takes every level) when
    the categories are equal. *)
Theorem init_supersedes lp rm cat w old mo :
  upper rm ∈ LogConfig.VALID_LEVELS →
  w_heap w !! old = Some mo →
  ∃ new w' mn,
    LogManager.__init__ lp rm cat w = (inr new, w') ∧
    new ≠ old ∧
    w_heap w' !! old = Some mo ∧
    w_heap w' !! new = Some mn ∧
    (∀ id h, (id, h) ∈ w_handlers w' → h_filter h = FilterCategory new) ∧
    ∀ V msg, V ∈ LogConfig.VALID_LEVELS →
      ∃ w2,
        emit_via V old msg w' = (inr (), w2) ∧
        (category mo ≠ cat → w_out w2 = w_out w') ∧
        (category mo = cat →
           ∃ id r,
             file_handlers mn !! "debug" = Some id ∧
             r_level r = V ∧ r_message r = msg ∧
             handler_out id w2 = (handler_out id w' ++ [r])%list).
Proof.
  intros Hv Hold.
  destruct (init_installed lp rm cat w Hv)
    as (new & w' & g & c & no & Hrun & Hi & _).
  destruct (valid_level_no _ Hv) as [no0 Hno0].
  destruct (init_spec lp rm cat w no0 Hv Hno0)
    as (w0 & Hrun0 & _ & _ & _ & Hnew & Hother & _).
  rewrite Hrun in Hrun0. injection Hrun0 as Hself Hw0. subst new w0.
  assert (Hne : fresh (dom (w_heap w)) ≠ old)
    by (intros Heq; rewrite Heq in Hnew; congruence).
  assert (Hold' : w_heap w' !! old = Some mo)
    by (rewrite Hother; [exact Hold | done]).
  match type of Hi with installed_with _ _ ?m0 _ _ _ => set (mn := m0) in * end.
  exists (fresh (dom (w_heap w))), w', mn.
  split; [exact Hrun|]. split; [exact Hne|].
  split; [exact Hold'|]. split; [apply Hi|].
  split; [intros id h; by eapply installed_filters|].
  intros V msg HV. destruct (valid_level_no V HV) as [v Hv'].
  eexists. split; [by apply (emit_via_ok V v old msg w' mo)|].
  split.
  - intros Hcat. cbn [w_out set_out].
    assert (Hnil : log.deliveries (record_of mo V v msg) w' = []).
    { unfold log.deliveries.
      assert (Hall : Forall (λ p : nat * Handler,
                log.handler_accepts p.2 (record_of mo V v msg) w' = false)
                (w_handlers w')).
      { apply Forall_forall. intros [id h] Hin. cbn.
        eapply handler_rejects_foreign;
          [apply Hi | by eapply installed_filters |].
        cbn. unfold LogManager.bound. rewrite lookup_singleton_eq.
        intros [= ?]. done. }
      induction Hall as [|p l Hp _ IH]; [reflexivity|].
      cbn [omap list_omap]. by rewrite Hp. }
    rewrite Hnil. apply app_nil_r.
  - intros Hcat. eexists (id_debug g), (record_of mo V v msg).
    split; [apply Hi|]. split; [reflexivity|]. split; [reflexivity|].
    unfold handler_out. cbn [w_out set_out].
    rewrite filter_app, fmap_app. f_equal.
    assert (Hrec : record_of mo V v msg = record_of mn V v msg).
    { unfold record_of, LogManager.bound. rewrite Hcat. reflexivity. }
    rewrite Hrec at 1.
    rewrite (deliveries_installed _ _ _ _ _ _ _ _ _ Hi).
    rewrite (events_of_handler _ (λ p, (h_levelno p.2 ≤ v)%Z) _ (id_debug g)
               (file_handler (fresh (dom (w_heap w)))
                  (log_file_path lp cat "debug" (date_debug g)) "DEBUG" 10)).
    + rewrite <- Hrec.
      four_levels HV; cbn in Hv'; injection Hv' as <-; reflexivity.
    + by eapply installed_ids_NoDup.
    + rewrite (inst_handlers _ _ _ _ _ _ Hi). apply elem_of_app. left.
      unfold registered_files. rewrite !elem_of_cons. auto 6.
Qed.

(** ** Configuring the file handlers again *)

(** A block of [_config_file_handlers] when its key is in
    [self.file_handlers] and the handler is registered: the handler is
    removed before the new one is added. *)
Lemma config_file_handler_replace self mode level no id w m :
  w_heap w !! self = Some m →
  file_handlers m !! mode = Some id →
  id ∈ (w_handlers w).*1 →
  level_no level = Some no →
  LogManager.config_file_handler self mode level w =
    (inr (),
     set_heap <[self := with_file_handlers <[mode := w_handlers_count w]> m]>
       (set_handlers (λ hs, (hs ++ [(w_handlers_count w,
           file_handler self
             (log_file_path (log_path m) (category m) mode
                (w_clock w (w_tick w))) level no)])%list)
         (set_handlers_count (S (w_handlers_count w))
           (set_paths (λ s, {[date_dir (log_path m) (w_clock w (w_tick w))]} ∪ s)
             (set_tick (S (w_tick w))
               (set_handlers (filter (λ p, p.1 ≠ id)) w)))))).
Proof.
  intros Hm Hid Hin Hno. unfold LogManager.config_file_handler.
  rewrite (bind_inr _ _ _ _ _ (deref_Some _ _ _ Hm)). rewrite Hid.
  rewrite (bind_inr _ _ _ _ _ (log_remove_ok _ _ Hin)).
  erewrite bind_inr; [| by apply get_log_file_path_ok ].
  erewrite bind_inr; [|by apply log_add_ok].
  rewrite (update_ok _ _ _ m) by done. reflexivity.
Qed.

Ltac filter_ids :=
  repeat first [ rewrite filter_cons_True by (cbn; lia)
               | rewrite filter_cons_False by (cbn; lia)
               | rewrite filter_nil ].

(** X6. [_config_file_handlers] called again on an installed manager does
    not duplicate anything: each of the four file handlers is removed and
    added anew under a fresh id, for the date of a new clock reading; the
    logger then holds the console handler and exactly one file handler for
    each level, and [self.file_handlers] holds the new ids. *)
Theorem config_file_handlers_again self w m g c no :
  installed_with self w m g c no →
  let n := w_handlers_count w in
  let t := w_tick w in
  ∃ w',
    LogManager._config_file_handlers self w = (inr (), w') ∧
    w_handlers w' =
      ((c, console_handler self (run_mode m) no) ::
       registered_files self (log_path m) (category m)
         {| id_error := n; id_warning := 1 + n; id_info := 2 + n;
            id_debug := 3 + n;
            date_error := w_clock w t; date_warning := w_clock w (1 + t);
            date_info := w_clock w (2 + t);
            date_debug := w_clock w (3 + t) |}) ∧
    w_handlers_count w' = 4 + n ∧
    (∃ m', w_heap w' !! self = Some m' ∧
           file_handlers m' !! "error" = Some n ∧
           file_handlers m' !! "warning" = Some (1 + n) ∧
           file_handlers m' !! "info" = Some (2 + n) ∧
           file_handlers m' !! "debug" = Some (3 + n) ∧
           console_handler_id m' = Some c ∧ run_mode m' = run_mode m) ∧
    w_out w' = w_out w.
Proof.
  intros [Hm He Hw Hin Hd Hc Hv Hno Hh Ho] n t.
  unfold LogManager._config_file_handlers.
  erewrite bind_inr;
    [| apply config_file_handler_replace with (no := 40%Z) (id := id_error g);
       [exact Hm | exact He | | reflexivity] ].
  2:{ rewrite Hh. cbn. rewrite !elem_of_cons. auto. }
  erewrite bind_inr;
    [| apply config_file_handler_replace with (no := 30%Z) (id := id_warning g);
       [heap_lookup | cbn; by rewrite lookup_insert_ne | | reflexivity] ].
  2:{ cbn. rewrite Hh. unfold registered_files. cbn [app]. filter_ids.
      cbn. rewrite !elem_of_cons. auto. }
  erewrite bind_inr;
    [| apply config_file_handler_replace with (no := 20%Z) (id := id_info g);
       [heap_lookup | cbn; by rewrite !lookup_insert_ne | | reflexivity] ].
  2:{ cbn. rewrite Hh. unfold registered_files. cbn [app]. filter_ids.
      cbn [app]. filter_ids. cbn. rewrite !elem_of_cons. auto. }
  erewrite config_file_handler_replace with (no := 10%Z) (id := id_debug g);
    [| heap_lookup | cbn; by rewrite !lookup_insert_ne | | reflexivity ].
  2:{ cbn. rewrite Hh. unfold registered_files. cbn [app]. filter_ids.
      cbn [app]. filter_ids. cbn [app]. filter_ids.
      cbn. rewrite !elem_of_cons. auto 6. }
  eexists. split; [reflexivity|]. cbn.
  split.
  { rewrite Hh. unfold registered_files. cbn [app]. filter_ids.
    cbn [app]. filter_ids. cbn [app]. filter_ids. cbn [app]. filter_ids.
    reflexivity. }
  split; [reflexivity|]. split; [|reflexivity].
  eexists. split; [by rewrite lookup_insert_eq|].
  cbn. rewrite Hc. repeat split;
    rewrite ?lookup_insert_eq, ?lookup_insert_ne by done;
    rewrite ?lookup_insert_eq, ?lookup_insert_ne by done;
    rewrite ?lookup_insert_eq, ?lookup_insert_ne by done;
    rewrite ?lookup_insert_eq; done.
Qed.

(** ** The predictor *)


(** X8. For image, video2img and video the wrapper is built on the
    configured [model_path]; only DynVideo replaces it by sam2_t.pt.  The
    video predictor gets the overrides conf 0.25, task segment, mode predict,
    imgsz 1024 and no save entry. *)
Theorem predictor_model_file model_path lm mode elapsed w m :
  w_heap w !! lm = Some m →
  mode ∈ init_modes →
  ∃ sp w' model,
    SAMPredictor.__init__ model_path (Some lm) mode elapsed w = (inr sp, w') ∧
    sp_model sp = Some model ∧
    model_file model =
      (if bool_decide (mode = "DynVideo") then "sam2_t.pt" else model_path) ∧
    (mode = "video" →
       model = SAM2VideoPredictor
                 {| ov_conf := QArith_base.Qmake 25 100; ov_task := "segment";
                    ov_mode := "predict"; ov_imgsz := 1024;
                    ov_model := model_path; ov_save := None |}).
Proof.
  intros Hm Hmode.
  destruct (predictor_init_ok model_path lm mode elapsed w m Hm)
    as (w' & Hrun & _).
  unfold init_modes in Hmode. rewrite !elem_of_cons, elem_of_nil in Hmode.
  destruct Hmode as [-> | [-> | [-> | [-> | []]]]];
    eexists _, w', _; (split; [exact Hrun|]); (split; [reflexivity|]);
    split; try reflexivity; intros [=]; reflexivity.
Qed.

(** X9. A call of a predictor invokes the wrapped model exactly once, on the
    input as given and with the keyword arguments points and labels, and
    returns the library's answer as it is; it saves nothing and changes no
    handler.  A predictor without a model raises [AttributeError] instead,
    and the library is not called. *)
Theorem call_passes_through sp lm m input_data bboxes points labels w :
  sp_log_manager sp = Some lm →
  w_heap w !! lm = Some m →
  ∃ w',
    w_handlers w' = w_handlers w ∧ w_heap w' = w_heap w ∧
    w_saved w' = w_saved w ∧
    match sp_model sp with
    | Some model =>
        SAMPredictor.__call__ sp input_data bboxes points labels w =
          (inr (w_predict w (call_of model input_data points labels)), w') ∧
        w_calls w' =
          (w_calls w ++ [call_of model input_data points labels])%list
    | None =>
        SAMPredictor.__call__ sp input_data bboxes points labels w =
          (inl (AttributeError
                  "'SAMPredictor' object has no attribute 'model'"), w') ∧
        w_calls w' = w_calls w
    end.
Proof.
  intros Hlm Hm. destruct (sp_model sp) as [model|] eqn:Hmodel.
  - destruct (call_ok sp lm m model input_data bboxes points labels w
                Hlm Hmodel Hm) as (w1 & Hl & Hrun).
    exists (set_calls
              (λ l, (l ++ [call_of model input_data points labels])%list) w1).
    rewrite Hrun. cbn.
    destruct Hl as (Hh & _ & Hp & _ & Hc & Hs & _).
    by rewrite Hh, Hp, Hc, Hs.
  - destruct (call_no_model sp lm m input_data bboxes points labels w
                Hlm Hmodel Hm) as (w1 & Hl & Hrun).
    exists w1. rewrite Hrun.
    destruct Hl as (Hh & _ & Hp & _ & Hc & Hs & _).
    by rewrite Hh, Hp, Hc, Hs.
Qed.

(** ** The command line *)

Lemma parse_args_run argv w :
  parse_args argv w =
    if argv_ok argv then (inr (args_of argv), w) else (inl (SystemExit 2), w).
Proof.
  unfold parse_args, argv_ok, args_of, choice, choice_ok, bind, ret, raise.
  destruct (argv_log_level argv) as [ll|], (argv_mode argv) as [mode|];
    cbn; repeat case_bool_decide; reflexivity.
Qed.


Lemma choice_ok_log_level given :
  choice_ok given log_level_choices = true →
  default "DEBUG" given ∈ LogConfig.VALID_LEVELS ∧
  upper (default "DEBUG" given) = default "DEBUG" given.
Proof.
  destruct given as [v|]; cbn.
  - intros Hv%bool_decide_eq_true. split; [exact Hv|].
    by apply upper_valid.
  - intros _. split; [valid_level | reflexivity].
Qed.

(** X11. Every level the command line accepts is a level of the manager:
    after [parse_args] has returned, [set_log_level(args.log_level)] on an
    installed manager returns and the current level is [args.log_level]. *)
Theorem cli_level_is_accepted argv w0 args self w :
  parse_args argv w0 = (inr args, w0) →
  installed self w →
  ∃ w',
    LogManager.set_log_level self (args_log_level args) w = (inr (), w') ∧
    LogManager.get_current_level self w' = (inr (args_log_level args), w') ∧
    installed self w'.
Proof.
  rewrite parse_args_run. unfold argv_ok.
  destruct (choice_ok (argv_log_level argv) _) eqn:Hll; [|discriminate].
  destruct (choice_ok (argv_mode argv) _); [|discriminate].
  cbn. intros [= <-] (m & g & c & no & Hi).
  destruct (choice_ok_log_level _ Hll) as [Hv Hu]. cbn [args_of args_log_level].
  destruct (set_log_level_ok self (default "DEBUG" (argv_log_level argv))
              w m g c no Hi)
    as (w' & c' & no' & imsg & Hrun & Hi' & _); [by rewrite Hu|].
  exists w'. split; [exact Hrun|]. split; [|by eexists _, g, c', no'].
  unfold LogManager.get_current_level.
  rewrite (bind_inr _ _ _ _ _ (deref_Some _ _ _ (inst_heap _ _ _ _ _ _ Hi'))).
  cbn. by rewrite Hu.
Qed.

(** ** The main block *)





(** ** The coloured console line *)






(** ** System information *)

(** X15. The dict of [get_system_info] holds each key once, and the keys
    that two of its sections share keep the place of the first and the value
    of the last.  So the entry 使用率, which stands in the CPU section, holds
    the memory percentage: the CPU percentage is in no entry and the memory
    section has the total and the available memory only.  With a GPU the
    entry 型号 of the CPU section holds the name of the GPU. *)
Theorem system_info_shared_keys f :
  (get_system_info f).*1 = system_info_keys (sf_cuda f) ∧
  NoDup (get_system_info f).*1 ∧
  dict_get "使用率" (get_system_info f)
    = Some (VStr (sf_mem_percent f +:+ "%")) ∧
  dict_get "型号" (get_system_info f)
    = Some (if sf_cuda f then sf_gpu_name f
            else VStr (if bool_decide (sf_processor f = "") then "未知CPU"
                       else sf_processor f)).
Proof.
  assert (Hk : (get_system_info f).*1 = system_info_keys (sf_cuda f)).
  { unfold get_system_info, basic_info, cpu_info, gpu_info, mem_info.
    destruct (sf_cuda f); reflexivity. }
  split; [exact Hk|]. split.
  { rewrite Hk. destruct (sf_cuda f);
      apply (@bool_decide_unpack _ (NoDup_dec _)); by vm_compute. }
  unfold get_system_info, basic_info, cpu_info, gpu_info, mem_info.
  destruct (sf_cuda f); split; reflexivity.
Qed.

(** X16. [print_system_info] prints a rule of 80 [=], the title and the rule
    again, then for each entry of the dict one line and for each of the four
    section headers a blank line before it, then the rule.  Under the CPU
    header it prints the model, the cores and as 使用率 the memory percentage;
    the memory section ends the output with two lines and no percentage. *)
Theorem print_system_info_lines f :
  let out := print_system_info f in
  let rule := str_repeat "=" 80 in
  length out = 8 + length (get_system_info f) ∧
  take 3 out = [rule; "📋 系统/硬件环境信息"; rule] ∧
  take 7 (drop 10 out) =
    [""; Color.ESC +:+ "[36m" +:+ NL +:+ "=== CPU信息 ===" +:+ Color.ESC +:+ "[0m";
     "  型号        : " +:+
       py_str (if sf_cuda f then sf_gpu_name f
               else VStr (if bool_decide (sf_processor f = "") then "未知CPU"
                          else sf_processor f));
     "  核心数       : " +:+ py_str (sf_cpu_logical f) +:+ " (逻辑) / " +:+
       py_str (sf_cpu_physical f) +:+ " (物理)";
     "  使用率       : " +:+ sf_mem_percent f +:+ "%";
     ""; Color.ESC +:+ "[36m" +:+ NL +:+ "=== GPU信息 ===" +:+ Color.ESC +:+ "[0m"] ∧
  drop (length out - 5) out =
    [""; Color.ESC +:+ "[36m" +:+ NL +:+ "=== 内存信息 ===" +:+ Color.ESC +:+ "[0m";
     "  总内存       : " +:+ sf_mem_total f +:+ "GB";
     "  可用内存      : " +:+ sf_mem_available f +:+ "GB";
     rule].
Proof.
  unfold print_system_info, get_system_info, basic_info, cpu_info, gpu_info,
    mem_info.
  destruct (sf_cuda f); repeat split; reflexivity.
Qed.

(** ** What the predictor prints *)




(** ** The further properties at concrete inputs *)

Ltac decide_by_evaluation :=
  first [ apply (proj1 (bool_decide_eq_true _)); by vm_compute
        | apply (proj1 (bool_decide_eq_false _)); by vm_compute ].


Lemma set_log_level_replaces_console_witness :
  w_heap world_installed !! 0 = Some manager_example ∧
  console_handler_id manager_example = Some 4 ∧
  4 ∈ (w_handlers world_installed).*1 ∧
  level_no (upper "error") = Some 40%Z ∧
  upper "error" ∈ LogConfig.VALID_LEVELS ∧
  ∃ w',
    LogManager.set_log_level 0 "error" world_installed = (inr (), w') ∧
    (run_mode manager_example = upper "error" →
       w_handlers w' = w_handlers world_installed ∧
       w_handlers_count w' = w_handlers_count world_installed ∧
       w_heap w' = w_heap world_installed) ∧
    (run_mode manager_example ≠ upper "error" →
       w_handlers w' =
         (filter (λ p : nat * Handler, p.1 ≠ 4) (w_handlers world_installed) ++
          [(w_handlers_count world_installed,
            console_handler 0 (upper "error") 40)])%list ∧
       w_handlers_count w' = S (w_handlers_count world_installed) ∧
       w_heap w' !! 0 =
         Some (with_console_handler_id
                 (Some (w_handlers_count world_installed))
                 (with_run_mode (upper "error") manager_example))).
Proof.
  assert (Hm : w_heap world_installed !! 0 = Some manager_example)
    by (vm_compute; reflexivity).
  assert (Hin : 4 ∈ (w_handlers world_installed).*1)
    by (vm_compute; repeat constructor).
  assert (Hv : upper "error" ∈ LogConfig.VALID_LEVELS)
    by (vm_compute; repeat constructor).
  split; [exact Hm|]. split; [reflexivity|]. split; [exact Hin|].
  split; [reflexivity|]. split; [exact Hv|].
  exact (set_log_level_replaces_console 0 "error" world_installed
           manager_example 4 40 Hm eq_refl Hin eq_refl Hv).
Defined.

Lemma set_log_level_stale_console_witness :
  w_heap world_superseded !! 0 = Some manager_example ∧
  console_handler_id manager_example = Some 4 ∧
  (4 ∉ (w_handlers world_superseded).*1) ∧
  upper "ERROR" ∈ LogConfig.VALID_LEVELS ∧
  run_mode manager_example ≠ upper "ERROR" ∧
  ∃ w',
    LogManager.set_log_level 0 "ERROR" world_superseded =
      (inl (ValueError ("There is no existing handler with id " +:+ pretty 4)),
       w') ∧
    w_handlers w' = w_handlers world_superseded ∧
    LogManager.get_current_level 0 w' = (inr (upper "ERROR"), w').
Proof.
  assert (Hm : w_heap world_superseded !! 0 = Some manager_example)
    by (vm_compute; reflexivity).
  assert (Hout : 4 ∉ (w_handlers world_superseded).*1)
    by decide_by_evaluation.
  assert (Hv : upper "ERROR" ∈ LogConfig.VALID_LEVELS)
    by (vm_compute; repeat constructor).
  assert (Hne : run_mode manager_example ≠ upper "ERROR") by (by vm_compute).
  split; [exact Hm|]. split; [reflexivity|]. split; [exact Hout|].
  split; [exact Hv|]. split; [exact Hne|].
  exact (set_log_level_stale_console 0 "ERROR" world_superseded
           manager_example 4 Hm eq_refl Hout Hv Hne).
Defined.


Lemma init_supersedes_witness :
  upper "INFO" ∈ LogConfig.VALID_LEVELS ∧
  w_heap world_installed !! 0 = Some manager_example ∧
  ∃ new w' mn,
    LogManager.__init__ "./logs/" "INFO" "other" world_installed
      = (inr new, w') ∧
    new ≠ 0 ∧
    w_heap w' !! 0 = Some manager_example ∧
    w_heap w' !! new = Some mn ∧
    (∀ id h, (id, h) ∈ w_handlers w' → h_filter h = FilterCategory new) ∧
    ∀ V msg, V ∈ LogConfig.VALID_LEVELS →
      ∃ w2,
        emit_via V 0 msg w' = (inr (), w2) ∧
        (category manager_example ≠ "other" → w_out w2 = w_out w') ∧
        (category manager_example = "other" →
           ∃ id r,
             file_handlers mn !! "debug" = Some id ∧
             r_level r = V ∧ r_message r = msg ∧
             handler_out id w2 = (handler_out id w' ++ [r])%list).
Proof.
  assert (Hv : upper "INFO" ∈ LogConfig.VALID_LEVELS)
    by (vm_compute; repeat constructor).
  assert (Hm : w_heap world_installed !! 0 = Some manager_example)
    by (vm_compute; reflexivity).
  split; [exact Hv|]. split; [exact Hm|].
  exact (init_supersedes "./logs/" "INFO" "other" world_installed 0
           manager_example Hv Hm).
Defined.

Lemma config_file_handlers_again_witness :
  installed_with 0 world_installed manager_example registration_example 4 20 ∧
  ∃ w',
    LogManager._config_file_handlers 0 world_installed = (inr (), w') ∧
    w_handlers w' =
      ((4, console_handler 0 (run_mode manager_example) 20) ::
       registered_files 0 (log_path manager_example) (category manager_example)
         {| id_error := w_handlers_count world_installed;
            id_warning := 1 + w_handlers_count world_installed;
            id_info := 2 + w_handlers_count world_installed;
            id_debug := 3 + w_handlers_count world_installed;
            date_error := w_clock world_installed (w_tick world_installed);
            date_warning :=
              w_clock world_installed (1 + w_tick world_installed);
            date_info := w_clock world_installed (2 + w_tick world_installed);
            date_debug :=
              w_clock world_installed (3 + w_tick world_installed) |}) ∧
    w_handlers_count w' = 4 + w_handlers_count world_installed ∧
    (∃ m', w_heap w' !! 0 = Some m' ∧
           file_handlers m' !! "error"
             = Some (w_handlers_count world_installed) ∧
           file_handlers m' !! "warning"
             = Some (1 + w_handlers_count world_installed) ∧
           file_handlers m' !! "info"
             = Some (2 + w_handlers_count world_installed) ∧
           file_handlers m' !! "debug"
             = Some (3 + w_handlers_count world_installed) ∧
           console_handler_id m' = Some 4 ∧
           run_mode m' = run_mode manager_example) ∧
    w_out w' = w_out world_installed.
Proof.
  assert (Hi : installed_with 0 world_installed manager_example
                 registration_example 4 20)
    by (constructor; by_evaluation).
  split; [exact Hi|].
  exact (config_file_handlers_again 0 world_installed manager_example
           registration_example 4 20 Hi).
Defined.


Lemma predictor_model_file_witness :
  w_heap world_installed !! 0 = Some manager_example ∧
  "video" ∈ init_modes ∧
  ∃ sp w' model,
    SAMPredictor.__init__ "sam2_b.pt" (Some 0) "video" "0.10" world_installed
      = (inr sp, w') ∧
    sp_model sp = Some model ∧
    model_file model =
      (if bool_decide ("video" = "DynVideo") then "sam2_t.pt"
       else "sam2_b.pt") ∧
    ("video" = "video" →
       model = SAM2VideoPredictor
                 {| ov_conf := QArith_base.Qmake 25 100; ov_task := "segment";
                    ov_mode := "predict"; ov_imgsz := 1024;
                    ov_model := "sam2_b.pt"; ov_save := None |}).
Proof.
  assert (Hm : w_heap world_installed !! 0 = Some manager_example)
    by (vm_compute; reflexivity).
  assert (Hin : "video" ∈ init_modes) by (vm_compute; repeat constructor).
  split; [exact Hm|]. split; [exact Hin|].
  exact (predictor_model_file "sam2_b.pt" 0 "video" "0.10" world_installed
           manager_example Hm Hin).
Defined.

Lemma call_passes_through_witness :
  sp_log_manager predictor_example = Some 0 ∧
  w_heap world_installed !! 0 = Some manager_example ∧
  ∃ w',
    w_handlers w' = w_handlers world_installed ∧
    w_heap w' = w_heap world_installed ∧
    w_saved w' = w_saved world_installed ∧
    match sp_model predictor_example with
    | Some model =>
        SAMPredictor.__call__ predictor_example (VStr "in.jpg")
          (bboxes config_example) (points config_example)
          (labels config_example) world_installed =
          (inr (w_predict world_installed
                  (call_of model (VStr "in.jpg") (points config_example)
                     (labels config_example))), w') ∧
        w_calls w' =
          (w_calls world_installed ++
           [call_of model (VStr "in.jpg") (points config_example)
              (labels config_example)])%list
    | None =>
        SAMPredictor.__call__ predictor_example (VStr "in.jpg")
          (bboxes config_example) (points config_example)
          (labels config_example) world_installed =
          (inl (AttributeError
                  "'SAMPredictor' object has no attribute 'model'"), w') ∧
        w_calls w' = w_calls world_installed
    end.
Proof.
  assert (Hm : w_heap world_installed !! 0 = Some manager_example)
    by (vm_compute; reflexivity).
  split; [reflexivity|]. split; [exact Hm|].
  exact (call_passes_through predictor_example 0 manager_example
           (VStr "in.jpg") (bboxes config_example) (points config_example)
           (labels config_example) world_installed eq_refl Hm).
Defined.

Lemma cli_level_is_accepted_witness :
  parse_args (argv_with_mode None) world_example
    = (inr args_example, world_example) ∧
  installed 0 world_installed ∧
  ∃ w',
    LogManager.set_log_level 0 (args_log_level args_example) world_installed
      = (inr (), w') ∧
    LogManager.get_current_level 0 w'
      = (inr (args_log_level args_example), w') ∧
    installed 0 w'.
Proof.
  assert (Hp : parse_args (argv_with_mode None) world_example
               = (inr args_example, world_example)) by reflexivity.
  assert (Hi : installed 0 world_installed) by installed_by_evaluation.
  split; [exact Hp|]. split; [exact Hi|].
  exact (cli_level_is_accepted (argv_with_mode None) world_example
           args_example 0 world_installed Hp Hi).
Defined.



